(** * TwitchPlayer: a model of the player-lifecycle component

    A shallow embedding of [src/components/TwitchPlayer.tsx]: the React
    component that loads the Twitch embed SDK, owns one SDK player instance,
    bridges the SDK's events to host callbacks, exposes an imperative handle
    ([TwitchPlayerRef]) and drives the auto-hiding controls overlay.

    The component is effectful JavaScript.  It is modelled by explicit state
    passing in a small state-and-exception monad [JS]: the state holds the
    hook values, the refs and the part of the page the component talks to
    (clock, the [window.Twitch] global, injected script elements, pending
    timeouts, the SDK's player objects, and logs of host callbacks and of
    [console.error]). *)

From Stdlib Require Import QArith.
From stdpp Require Import base option list strings pretty numbers.

Open Scope Z_scope.
Open Scope string_scope.

(** ** JavaScript values *)

(** JavaScript numbers that the component only passes through (seconds,
    volume, pixel sizes) are rationals; [Date.now()] and timer deadlines are
    integers of milliseconds. *)
Definition number : Type := Q.

#[global] Instance number_eq_dec : EqDecision number.
Proof. solve_decision. Defined.

(** The result of evaluating a call: it returns or it throws. *)
Inductive Completion (A : Type) : Type :=
| Normal (a : A)
| Throw (err : string).
Arguments Normal {A} a.
Arguments Throw {A} err.

(** [number | string], the type of [width] and [height]. *)
Inductive Dim : Type :=
| DimNumber (n : number)
| DimString (s : string).

#[global] Instance Dim_eq_dec : EqDecision Dim.
Proof. solve_decision. Defined.

(** A host callback is known by its identity; calling it is recorded. *)
Definition Callback : Type := nat.

Inductive HostCall : Type :=
| Called (f : Callback) (args : list number).

(** ** Interfaces of the source *)

Record TwitchPlayerOptions : Type := {
  opt_channel : option string;
  opt_video : option string;
  opt_collection : option string;
  opt_width : Dim;
  opt_height : Dim
}.

Record TwitchPlayerProps : Type := {
  channel : option string;
  video : option string;
  collection : option string;
  width : option Dim;
  height : option Dim;
  onReady : option Callback;
  onPlay : option Callback;
  onPause : option Callback;
  onEnded : option Callback;
  onSeek : option Callback
}.

(** The destructuring defaults [width = "100%"], [height = "100%"]. *)
Definition width_of (p : TwitchPlayerProps) : Dim :=
  default (DimString "100%") (width p).
Definition height_of (p : TwitchPlayerProps) : Dim :=
  default (DimString "100%") (height p).

(** The dependency array of the effect. *)
Definition deps (p : TwitchPlayerProps) :
  option string * option string * option string * Dim * Dim *
  (option Callback * option Callback * option Callback * option Callback *
   option Callback) :=
  (channel p, video p, collection p, width_of p, height_of p,
   (onReady p, onPlay p, onPause p, onEnded p, onSeek p)).

(** The options object handed to the SDK constructor. *)
Definition options_of (p : TwitchPlayerProps) : TwitchPlayerOptions :=
  {| opt_channel := channel p; opt_video := video p;
     opt_collection := collection p;
     opt_width := width_of p; opt_height := height_of p |}.

(** [TwitchPlayerInstance]: the SDK's player, an external collaborator.  Its
    behaviour is left open: [I] is the SDK's private state of one player,
    every method may throw, and the constructor [Player] may throw.  Only
    [destroy] and [addEventListener] are taken not to throw. *)
Module Sdk.
Class TwitchPlayerInstance (I : Type) : Type := {
  Player : string → TwitchPlayerOptions → Completion I;
  pause : I → Completion I;
  play : I → Completion I;
  seek : number → I → Completion I;
  setChannel : string → I → Completion I;
  setVideo : string → option number → I → Completion I;
  getMuted : I → Completion bool;
  setMuted : bool → I → Completion I;
  getVolume : I → Completion number;
  setVolume : number → I → Completion I;
  getChannel : I → Completion string;
  getCurrentTime : I → Completion number;
  getDuration : I → Completion number;
  destroy : I → I
}.
End Sdk.

(** The five listeners that [loadTwitchPlayer] registers; each closes over
    the callback prop of the effect run that created the player. *)
Inductive Listener : Type :=
| ReadyListener (cb : option Callback)
| PlayListener (cb : option Callback)
| PauseListener (cb : option Callback)
| EndedListener (cb : option Callback)
| SeekListener (cb : option Callback).

(** A player object of the SDK as the page sees it. *)
Record PlayerObj (I : Type) : Type := {
  elementId : string;
  options : TwitchPlayerOptions;
  listeners : list (string * Listener);
  destroyed : bool;
  impl : I
}.
Arguments elementId {I} _.
Arguments options {I} _.
Arguments listeners {I} _.
Arguments destroyed {I} _.
Arguments impl {I} _.

(** A script element appended to [document.head]; [onload] is the
    [loadTwitchPlayer] closure of the effect run with props [script_env]. *)
Inductive ScriptStatus : Type := Pending | Loaded | Failed.

Record ScriptElement : Type := {
  src : string;
  script_env : TwitchPlayerProps;
  status : ScriptStatus
}.

(** ** State *)

(** The [useState] cells. *)
Record Hooks : Type := {
  isLoading : bool;
  error : option string;
  isPlayerReady : bool;
  isPaused : bool;
  showControls : bool
}.

(** The [useRef] cells.  [containerRef] is [None] while the container div is
    not in the document and otherwise holds the div's [innerHTML];
    [playerRef] refers to a player object of the page by its index. *)
Record Refs : Type := {
  containerRef : option string;
  playerRef : option nat;
  hideControlsTimeoutRef : option nat
}.

(** The page around the component.  [timeouts] are the pending timeouts
    (handle, deadline); the only callback ever scheduled is the one that
    hides the controls.  [divIds] records, oldest first, the id of every
    player div the component has written into its container. *)
Record Page (I : Type) : Type := {
  now : Z;
  Twitch : bool;
  head : list ScriptElement;
  timeouts : list (nat * Z);
  timeoutSeq : nat;
  players : list (PlayerObj I);
  divIds : list string;
  hostCalls : list HostCall;
  console : list string
}.
Arguments now {I} _.
Arguments Twitch {I} _.
Arguments head {I} _.
Arguments timeouts {I} _.
Arguments timeoutSeq {I} _.
Arguments players {I} _.
Arguments divIds {I} _.
Arguments hostCalls {I} _.
Arguments console {I} _.

Record State (I : Type) : Type := {
  props : TwitchPlayerProps;
  mounted : bool;
  hooks : Hooks;
  refs : Refs;
  page : Page I
}.
Arguments props {I} _.
Arguments mounted {I} _.
Arguments hooks {I} _.
Arguments refs {I} _.
Arguments page {I} _.

(** Record updates. *)
Definition hooks_isLoading (b : bool) (h : Hooks) : Hooks :=
  {| isLoading := b; error := error h; isPlayerReady := isPlayerReady h;
     isPaused := isPaused h; showControls := showControls h |}.
Definition hooks_error (e : option string) (h : Hooks) : Hooks :=
  {| isLoading := isLoading h; error := e; isPlayerReady := isPlayerReady h;
     isPaused := isPaused h; showControls := showControls h |}.
Definition hooks_isPlayerReady (b : bool) (h : Hooks) : Hooks :=
  {| isLoading := isLoading h; error := error h; isPlayerReady := b;
     isPaused := isPaused h; showControls := showControls h |}.
Definition hooks_isPaused (b : bool) (h : Hooks) : Hooks :=
  {| isLoading := isLoading h; error := error h;
     isPlayerReady := isPlayerReady h; isPaused := b;
     showControls := showControls h |}.
Definition hooks_showControls (b : bool) (h : Hooks) : Hooks :=
  {| isLoading := isLoading h; error := error h;
     isPlayerReady := isPlayerReady h; isPaused := isPaused h;
     showControls := b |}.

Definition refs_containerRef (c : option string) (r : Refs) : Refs :=
  {| containerRef := c; playerRef := playerRef r;
     hideControlsTimeoutRef := hideControlsTimeoutRef r |}.
Definition refs_playerRef (p : option nat) (r : Refs) : Refs :=
  {| containerRef := containerRef r; playerRef := p;
     hideControlsTimeoutRef := hideControlsTimeoutRef r |}.
Definition refs_hideControlsTimeoutRef (t : option nat) (r : Refs) : Refs :=
  {| containerRef := containerRef r; playerRef := playerRef r;
     hideControlsTimeoutRef := t |}.

Section Updates.
Context {I : Type}.

Definition page_now (t : Z) (g : Page I) : Page I :=
  {| now := t; Twitch := Twitch g; head := head g; timeouts := timeouts g;
     timeoutSeq := timeoutSeq g; players := players g;
     divIds := divIds g; hostCalls := hostCalls g; console := console g |}.
Definition page_Twitch (b : bool) (g : Page I) : Page I :=
  {| now := now g; Twitch := b; head := head g; timeouts := timeouts g;
     timeoutSeq := timeoutSeq g; players := players g;
     divIds := divIds g; hostCalls := hostCalls g; console := console g |}.
Definition page_head (l : list ScriptElement) (g : Page I) : Page I :=
  {| now := now g; Twitch := Twitch g; head := l; timeouts := timeouts g;
     timeoutSeq := timeoutSeq g; players := players g;
     divIds := divIds g; hostCalls := hostCalls g; console := console g |}.
Definition page_timeouts (l : list (nat * Z)) (g : Page I) : Page I :=
  {| now := now g; Twitch := Twitch g; head := head g; timeouts := l;
     timeoutSeq := timeoutSeq g; players := players g;
     divIds := divIds g; hostCalls := hostCalls g; console := console g |}.
Definition page_timeoutSeq (n : nat) (g : Page I) : Page I :=
  {| now := now g; Twitch := Twitch g; head := head g;
     timeouts := timeouts g; timeoutSeq := n; players := players g;
     divIds := divIds g; hostCalls := hostCalls g; console := console g |}.
Definition page_players (l : list (PlayerObj I)) (g : Page I) : Page I :=
  {| now := now g; Twitch := Twitch g; head := head g;
     timeouts := timeouts g; timeoutSeq := timeoutSeq g; players := l;
     divIds := divIds g; hostCalls := hostCalls g; console := console g |}.
Definition page_divIds (l : list string) (g : Page I) : Page I :=
  {| now := now g; Twitch := Twitch g; head := head g;
     timeouts := timeouts g; timeoutSeq := timeoutSeq g;
     players := players g; divIds := l; hostCalls := hostCalls g;
     console := console g |}.
Definition page_hostCalls (l : list HostCall) (g : Page I) : Page I :=
  {| now := now g; Twitch := Twitch g; head := head g;
     timeouts := timeouts g; timeoutSeq := timeoutSeq g;
     players := players g; divIds := divIds g; hostCalls := l;
     console := console g |}.
Definition page_console (l : list string) (g : Page I) : Page I :=
  {| now := now g; Twitch := Twitch g; head := head g;
     timeouts := timeouts g; timeoutSeq := timeoutSeq g;
     players := players g; divIds := divIds g;
     hostCalls := hostCalls g; console := l |}.

Definition with_props (p : TwitchPlayerProps) (st : State I) : State I :=
  {| props := p; mounted := mounted st; hooks := hooks st;
     refs := refs st; page := page st |}.
Definition with_mounted (b : bool) (st : State I) : State I :=
  {| props := props st; mounted := b; hooks := hooks st;
     refs := refs st; page := page st |}.
Definition on_hooks (f : Hooks → Hooks) (st : State I) : State I :=
  {| props := props st; mounted := mounted st; hooks := f (hooks st);
     refs := refs st; page := page st |}.
Definition on_refs (f : Refs → Refs) (st : State I) : State I :=
  {| props := props st; mounted := mounted st; hooks := hooks st;
     refs := f (refs st); page := page st |}.
Definition on_page (f : Page I → Page I) (st : State I) : State I :=
  {| props := props st; mounted := mounted st; hooks := hooks st;
     refs := refs st; page := f (page st) |}.

Definition player_destroyed (b : bool) (o : PlayerObj I) : PlayerObj I :=
  {| elementId := elementId o; options := options o;
     listeners := listeners o; destroyed := b; impl := impl o |}.
Definition player_impl (d : I) (o : PlayerObj I) : PlayerObj I :=
  {| elementId := elementId o; options := options o;
     listeners := listeners o; destroyed := destroyed o; impl := d |}.
Definition player_listeners (l : list (string * Listener))
    (o : PlayerObj I) : PlayerObj I :=
  {| elementId := elementId o; options := options o;
     listeners := l; destroyed := destroyed o; impl := impl o |}.
End Updates.

Definition script_status (s : ScriptStatus) (e : ScriptElement) : ScriptElement :=
  {| src := src e; script_env := script_env e; status := s |}.

(** ** The monad of effectful code *)

(** State passing with exceptions: a computation returns or throws, and in
    both cases leaves a state behind. *)
Definition JS (S A : Type) : Type := S → Completion A * S.

Definition ret {S A : Type} (a : A) : JS S A := λ st, (Normal a, st).

Definition throw {S A : Type} (e : string) : JS S A := λ st, (Throw e, st).

Definition bind {S A B : Type} (m : JS S A) (k : A → JS S B) : JS S B :=
  λ st, match m st with
        | (Normal a, st') => k a st'
        | (Throw e, st') => (Throw e, st')
        end.

Definition try_catch {S A : Type} (m : JS S A) (h : string → JS S A) : JS S A :=
  λ st, match m st with
        | (Normal a, st') => (Normal a, st')
        | (Throw e, st') => h e st'
        end.

Definition gets {S A : Type} (f : S → A) : JS S A := λ st, (Normal (f st), st).

Definition modify {S : Type} (f : S → S) : JS S unit := λ st, (Normal tt, f st).

(** The state a computation leaves, whether it returned or threw. *)
Definition exec {S A : Type} (m : JS S A) (st : S) : S := (m st).2.

Notation "x <- m ;; k" := (bind m (λ x, k))
  (at level 100, m at next level, right associativity).
Notation "m ;; k" := (bind m (λ _, k))
  (at level 100, right associativity).

(** ** The component *)

Section Component.
Context {I : Type} `{!Sdk.TwitchPlayerInstance I}.

Local Abbreviation St := (State I).

(** *** Hooks and refs *)

Definition setIsLoading (b : bool) : JS St unit :=
  modify (on_hooks (hooks_isLoading b)).
Definition setError (e : option string) : JS St unit :=
  modify (on_hooks (hooks_error e)).
Definition setIsPlayerReady (b : bool) : JS St unit :=
  modify (on_hooks (hooks_isPlayerReady b)).
Definition setIsPaused (b : bool) : JS St unit :=
  modify (on_hooks (hooks_isPaused b)).
Definition setShowControls (b : bool) : JS St unit :=
  modify (on_hooks (hooks_showControls b)).

Definition set_playerRef (p : option nat) : JS St unit :=
  modify (on_refs (refs_playerRef p)).
Definition set_hideControlsTimeoutRef (t : option nat) : JS St unit :=
  modify (on_refs (refs_hideControlsTimeoutRef t)).
Definition set_innerHTML (html : string) : JS St unit :=
  modify (on_refs (refs_containerRef (Some html))).
Definition record_divId (id : string) : JS St unit :=
  modify (on_page (λ g, page_divIds (divIds g ++ [id]) g)).

(** *** The page: timers, clock, console, host callbacks *)

(** [setTimeout(hide, delay)]: a fresh handle, due at [now + delay]. *)
Definition setTimeout (delay : Z) : JS St nat :=
  λ st, let id := S (timeoutSeq (page st)) in
        (Normal id,
         on_page (λ g, page_timeoutSeq id
                         (page_timeouts (timeouts g ++ [(id, now g + delay)]) g))
                 st).

Definition clearTimeout (id : nat) : JS St unit :=
  modify (on_page (λ g, page_timeouts
                          (filter (λ t, t.1 ≠ id) (timeouts g)) g)).

Definition Date_now : JS St Z := gets (λ st, now (page st)).

Definition console_error (msg : string) : JS St unit :=
  modify (on_page (λ g, page_console (console g ++ [msg]) g)).

(** [cb?.(args)] *)
Definition call (cb : option Callback) (args : list number) : JS St unit :=
  match cb with
  | Some f => modify (on_page (λ g, page_hostCalls
                                      (hostCalls g ++ [Called f args]) g))
  | None => ret tt
  end.

(** *** The SDK's player objects *)

(** A method call [player.m(...)] that changes the player. *)
Definition invoke (i : nat) (m : I → Completion I) : JS St unit :=
  λ st, match players (page st) !! i with
        | Some o =>
            match m (impl o) with
            | Normal d =>
                (Normal tt,
                 on_page (page_players
                            (<[i := player_impl d o]> (players (page st)))) st)
            | Throw e => (Throw e, st)
            end
        | None => (Throw "TypeError", st)
        end.

(** A getter call [player.g()]. *)
Definition query {A : Type} (i : nat) (g : I → Completion A) : JS St A :=
  λ st, match players (page st) !! i with
        | Some o => (g (impl o), st)
        | None => (Throw "TypeError", st)
        end.

Definition destroy (i : nat) : JS St unit :=
  modify (on_page (λ g, page_players
    (alter (λ o, player_destroyed true (player_impl (Sdk.destroy (impl o)) o))
           i (players g)) g)).

Definition addEventListener (i : nat) (event : string) (l : Listener) :
    JS St unit :=
  modify (on_page (λ g, page_players
    (alter (λ o, player_listeners (listeners o ++ [(event, l)]) o)
           i (players g)) g)).

(** [new window.Twitch.Player(elementId, options)]; dereferencing an
    undefined [window.Twitch] is a TypeError. *)
Definition new_Twitch_Player (playerId : string) (o : TwitchPlayerOptions) :
    JS St nat :=
  λ st,
    if Twitch (page st) then
      match Sdk.Player playerId o with
      | Normal d =>
          (Normal (length (players (page st))),
           on_page (λ g, page_players
                     (players g ++
                      [{| elementId := playerId; options := o;
                          listeners := []; destroyed := false;
                          impl := d |}]) g) st)
      | Throw e => (Throw e, st)
      end
    else (Throw "TypeError", st).

Definition appendChild_head (s : ScriptElement) : JS St unit :=
  modify (on_page (λ g, page_head (head g ++ [s]) g)).

(** *** Overlay handlers *)

Definition clearHideTimeout : JS St unit :=
  t <- gets (λ st, hideControlsTimeoutRef (refs st)) ;;
  match t with
  | Some id => clearTimeout id ;; set_hideControlsTimeoutRef None
  | None => ret tt
  end.

(** The callback given to [setTimeout]. *)
Definition hideControls : JS St unit :=
  setShowControls false ;;
  set_hideControlsTimeoutRef None.

Definition handleMouseActivity : JS St unit :=
  setShowControls true ;;
  clearHideTimeout ;;
  id <- setTimeout 3000 ;;
  set_hideControlsTimeoutRef (Some id).

Definition handleMouseLeave : JS St unit :=
  setShowControls false ;;
  clearHideTimeout.

(** [playerRef.current && isPlayerReady]: the player to delegate to. *)
Definition playerRef_and_isPlayerReady (st : St) : option nat :=
  match playerRef (refs st) with
  | Some i => if isPlayerReady (hooks st) then Some i else None
  | None => None
  end.

Definition handlePlayPause : JS St unit :=
  g <- gets playerRef_and_isPlayerReady ;;
  paused <- gets (λ st, isPaused (hooks st)) ;;
  match g with
  | Some i => if paused then invoke i Sdk.play else invoke i Sdk.pause
  | None => ret tt
  end ;;
  handleMouseActivity.

(** *** The effect *)

Definition quote : string := String (Ascii.ascii_of_nat 34) "".

Definition playerId_of (t : Z) : string := "twitch-player-" +:+ pretty t.

Definition container_html (playerId : string) : string :=
  "<div id=" +:+ quote +:+ playerId +:+ quote +:+ "></div>".

(** The block [if (playerRef.current) { destroy; clear; not ready }], which
    the source has twice: in [loadTwitchPlayer] and in the cleanup. *)
Definition destroy_current_player : JS St unit :=
  cur <- gets (λ st, playerRef (refs st)) ;;
  match cur with
  | Some i =>
      destroy i ;;
      set_playerRef None ;;
      setIsPlayerReady false
  | None => ret tt
  end.

Definition loadTwitchPlayer (p : TwitchPlayerProps) : JS St unit :=
  c <- gets (λ st, containerRef (refs st)) ;;
  match c with
  | None => ret tt
  | Some _ =>
      destroy_current_player ;;
      t <- Date_now ;;
      let playerId := playerId_of t in
      set_innerHTML (container_html playerId) ;;
      record_divId playerId ;;
      try_catch
        (player <- new_Twitch_Player playerId (options_of p) ;;
         set_playerRef (Some player) ;;
         addEventListener player "ready" (ReadyListener (onReady p)) ;;
         addEventListener player "play" (PlayListener (onPlay p)) ;;
         addEventListener player "pause" (PauseListener (onPause p)) ;;
         addEventListener player "ended" (EndedListener (onEnded p)) ;;
         addEventListener player "seek" (SeekListener (onSeek p)))
        (λ err,
           setError (Some "Failed to initialize Twitch player") ;;
           setIsLoading false ;;
           setIsPlayerReady false ;;
           console_error ("Twitch Player Error: " +:+ err))
  end.

Definition script_onerror : JS St unit :=
  setError (Some "Failed to load Twitch embed script") ;;
  setIsLoading false ;;
  setIsPlayerReady false.

(** The body of [useEffect], run with the props of the render. *)
Definition effect (p : TwitchPlayerProps) : JS St unit :=
  tw <- gets (λ st, Twitch (page st)) ;;
  if negb tw then
    appendChild_head {| src := "https://embed.twitch.tv/embed/v1.js";
                        script_env := p; status := Pending |}
  else loadTwitchPlayer p.

(** The function the effect returns. *)
Definition cleanup : JS St unit :=
  clearHideTimeout ;;
  destroy_current_player.

(** *** The event bridge *)

(** The body of each listener; [player] is the player the listener was
    registered on. *)
Definition run_listener (player : nat) (l : Listener) : JS St unit :=
  match l with
  | ReadyListener cb =>
      setIsLoading false ;;
      setError None ;;
      setIsPlayerReady true ;;
      setIsPaused false ;;
      call cb []
  | PlayListener cb =>
      setIsPaused false ;;
      call cb []
  | PauseListener cb =>
      setIsPaused true ;;
      call cb []
  | EndedListener cb =>
      setIsPaused true ;;
      call cb []
  | SeekListener cb =>
      currentTime <- query player Sdk.getCurrentTime ;;
      call cb [currentTime]
  end.

(** The SDK emits [event] on player [i]: every listener registered under
    that name runs, in registration order. *)
Definition emit (i : nat) (event : string) (st : St) : St :=
  match players (page st) !! i with
  | Some o =>
      foldl (λ s nl, if decide (nl.1 = event)
                     then exec (run_listener i nl.2) s else s)
            st (listeners o)
  | None => st
  end.
End Component.

(** ** Rendering *)

Inductive Icon : Type := FaPlay | FaPause.

(** What the component returns: the error container, or the player container
    with the loading overlay, the [pointerEvents] style of the player div and
    the controls overlay (shown class, icon of the button). *)
Inductive View : Type :=
| ErrorContainer (w h : Dim) (errorText : string)
| Container (w h : Dim) (loadingOverlay : bool) (pointerEvents : string)
    (controlsOverlay : option (bool * Icon)).

Section Render.
Context {I : Type}.

(** [if (error)]: [null] and the empty string are falsy. *)
Definition error_shown (st : State I) : option string :=
  match error (hooks st) with
  | Some e => if decide (e = "") then None else Some e
  | None => None
  end.

Definition render (st : State I) : View :=
  match error_shown st with
  | Some e =>
      ErrorContainer (width_of (props st)) (height_of (props st))
                     ("Error: " +:+ e)
  | None =>
      Container (width_of (props st)) (height_of (props st))
        (isLoading (hooks st))
        (if showControls (hooks st) then "none" else "auto")
        (if isPlayerReady (hooks st)
         then Some (showControls (hooks st),
                    if isPaused (hooks st) then FaPlay else FaPause)
         else None)
  end.

(** React commits the render: the container div, which carries
    [containerRef], is in the document exactly while the component is
    mounted and renders the player container; a newly inserted div is
    empty. *)
Definition commit (st : State I) : State I :=
  if mounted st then
    match render st with
    | ErrorContainer _ _ _ => on_refs (refs_containerRef None) st
    | Container _ _ _ _ _ =>
        match containerRef (refs st) with
        | Some _ => st
        | None => on_refs (refs_containerRef (Some "")) st
        end
    end
  else st.
End Render.

(** ** The imperative handle *)

Module TwitchPlayerRef.
Section Handle.
Context {I : Type} `{!Sdk.TwitchPlayerInstance I}.

Local Abbreviation St := (State I).

Definition play : JS St unit :=
  g <- gets playerRef_and_isPlayerReady ;;
  match g with
  | Some i => invoke i Sdk.play
  | None => ret tt
  end.

Definition pause : JS St unit :=
  g <- gets playerRef_and_isPlayerReady ;;
  match g with
  | Some i => invoke i Sdk.pause
  | None => ret tt
  end.

Definition togglePlayPause : JS St unit :=
  g <- gets playerRef_and_isPlayerReady ;;
  paused <- gets (λ st, isPaused (hooks st)) ;;
  match g with
  | Some i => if paused then invoke i Sdk.play else invoke i Sdk.pause
  | None => ret tt
  end.

Definition seek (timestamp : number) : JS St unit :=
  g <- gets playerRef_and_isPlayerReady ;;
  match g with
  | Some i => invoke i (Sdk.seek timestamp)
  | None => ret tt
  end.

Definition setVolume (volume : number) : JS St unit :=
  g <- gets playerRef_and_isPlayerReady ;;
  match g with
  | Some i => invoke i (Sdk.setVolume volume)
  | None => ret tt
  end.

Definition getVolume : JS St number :=
  g <- gets playerRef_and_isPlayerReady ;;
  match g with
  | Some i => query i Sdk.getVolume
  | None => ret 0%Q
  end.

Definition setMuted (muted : bool) : JS St unit :=
  g <- gets playerRef_and_isPlayerReady ;;
  match g with
  | Some i => invoke i (Sdk.setMuted muted)
  | None => ret tt
  end.

Definition getMuted : JS St bool :=
  g <- gets playerRef_and_isPlayerReady ;;
  match g with
  | Some i => query i Sdk.getMuted
  | None => ret false
  end.

Definition getCurrentTime : JS St number :=
  g <- gets playerRef_and_isPlayerReady ;;
  match g with
  | Some i => query i Sdk.getCurrentTime
  | None => ret 0%Q
  end.

Definition getDuration : JS St number :=
  g <- gets playerRef_and_isPlayerReady ;;
  match g with
  | Some i => query i Sdk.getDuration
  | None => ret 0%Q
  end.

Definition getChannel : JS St string :=
  g <- gets playerRef_and_isPlayerReady ;;
  match g with
  | Some i => query i Sdk.getChannel
  | None => ret ""
  end.

Definition setChannel (channel : string) : JS St unit :=
  g <- gets playerRef_and_isPlayerReady ;;
  match g with
  | Some i => invoke i (Sdk.setChannel channel)
  | None => ret tt
  end.

Definition setVideo (videoId : string) (timestamp : option number) :
    JS St unit :=
  g <- gets playerRef_and_isPlayerReady ;;
  match g with
  | Some i => invoke i (Sdk.setVideo videoId timestamp)
  | None => ret tt
  end.

Definition isReady : JS St bool := gets (λ st, isPlayerReady (hooks st)).

Definition isPaused : JS St bool := gets (λ st, isPaused (hooks st)).
End Handle.
End TwitchPlayerRef.

(** ** The component in its environment *)

Inductive PointerEvent : Type :=
| MouseMove      (* onMouseMove of the container *)
| Click          (* onClick of the container *)
| MouseLeave     (* onMouseLeave of the container *)
| ButtonClick.   (* onClick of the play/pause button, bubbling to the container *)

(** The mutators of the handle, as the host calls them. *)
Inductive Mutator : Type :=
| CallPlay
| CallPause
| CallTogglePlayPause
| CallSeek (timestamp : number)
| CallSetVolume (volume : number)
| CallSetMuted (muted : bool)
| CallSetChannel (channel : string)
| CallSetVideo (videoId : string) (timestamp : option number).

Inductive Event : Type :=
| SetProps (p : TwitchPlayerProps)   (* the host renders the component again *)
| Unmount
| ScriptLoad (k : nat)               (* the k-th script of the head has loaded *)
| ScriptError (k : nat)              (* the k-th script has failed to load *)
| SdkEvent (i : nat) (name : string) (* the SDK emits an event on player i *)
| Pointer (e : PointerEvent)
| Call (c : Mutator)
| Elapse (d : N).                    (* d milliseconds pass *)

Section Machine.
Context {I : Type} `{!Sdk.TwitchPlayerInstance I}.

Local Abbreviation St := (State I).

Definition mutator (c : Mutator) : JS St unit :=
  match c with
  | CallPlay => TwitchPlayerRef.play
  | CallPause => TwitchPlayerRef.pause
  | CallTogglePlayPause => TwitchPlayerRef.togglePlayPause
  | CallSeek t => TwitchPlayerRef.seek t
  | CallSetVolume v => TwitchPlayerRef.setVolume v
  | CallSetMuted m => TwitchPlayerRef.setMuted m
  | CallSetChannel c => TwitchPlayerRef.setChannel c
  | CallSetVideo v t => TwitchPlayerRef.setVideo v t
  end.

(** A page on which the component has not run yet. *)
Definition initial_page (t : Z) (tw : bool) : Page I :=
  {| now := t; Twitch := tw; head := []; timeouts := []; timeoutSeq := 0;
     players := []; divIds := []; hostCalls := []; console := [] |}.

(** First render (initial hook values, container div inserted), then the
    effect. *)
Definition mount (p : TwitchPlayerProps) (g : Page I) : St :=
  commit (exec (effect p)
    {| props := p; mounted := true;
       hooks := {| isLoading := true; error := None;
                   isPlayerReady := false; isPaused := true;
                   showControls := false |};
       refs := {| containerRef := Some ""; playerRef := None;
                  hideControlsTimeoutRef := None |};
       page := g |}).

(** A render with new props: the effect is cleaned up and run again when a
    dependency has changed. *)
Definition set_props (p : TwitchPlayerProps) (st : St) : St :=
  if mounted st then
    if decide (deps p = deps (props st)) then with_props p st
    else exec (effect p) (exec cleanup (with_props p st))
  else st.

Definition unmount (st : St) : St :=
  if mounted st then
    on_refs (refs_containerRef None) (with_mounted false (exec cleanup st))
  else st.

(** A pending script settles: the SDK script defines [window.Twitch] and
    its [onload] runs, or its [onerror] runs. *)
Definition script_load (k : nat) (st : St) : St :=
  match head (page st) !! k with
  | Some s =>
      match status s with
      | Pending =>
          exec (loadTwitchPlayer (script_env s))
               (on_page (λ g, page_Twitch true
                                (page_head (<[k := script_status Loaded s]>
                                              (head g)) g)) st)
      | _ => st
      end
  | None => st
  end.

Definition script_error (k : nat) (st : St) : St :=
  match head (page st) !! k with
  | Some s =>
      match status s with
      | Pending =>
          exec script_onerror
               (on_page (λ g, page_head (<[k := script_status Failed s]>
                                           (head g)) g) st)
      | _ => st
      end
  | None => st
  end.

(** Pointer events reach the handlers of whatever is in the document. *)
Definition pointer (e : PointerEvent) (st : St) : St :=
  if mounted st then
    match render st with
    | ErrorContainer _ _ _ => st
    | Container _ _ _ _ controls =>
        match e with
        | MouseMove | Click => exec handleMouseActivity st
        | MouseLeave => exec handleMouseLeave st
        | ButtonClick =>
            match controls with
            | Some _ => exec handleMouseActivity (exec handlePlayPause st)
            | None => st
            end
        end
    end
  else st.

(** Time passes: the clock advances and every timeout that has come due
    runs its callback. *)
Definition elapse (d : N) (st : St) : St :=
  let t := now (page st) + Z.of_N d in
  let due := filter (λ x, (x.2 ≤ t)%Z) (timeouts (page st)) in
  foldl (λ s _, exec hideControls s)
        (on_page (λ g, page_now t
                         (page_timeouts
                            (filter (λ x, ¬ (x.2 ≤ t)%Z) (timeouts g)) g)) st)
        due.

Definition step (e : Event) (st : St) : St :=
  commit
    match e with
    | SetProps p => set_props p st
    | Unmount => unmount st
    | ScriptLoad k => script_load k st
    | ScriptError k => script_error k st
    | SdkEvent i name => emit i name st
    | Pointer e => pointer e st
    | Call c => exec (mutator c) st
    | Elapse d => elapse d st
    end.

Definition run (es : list Event) (st : St) : St :=
  foldl (λ s e, step e s) st es.

(** The states of one mounted widget's life. *)
Inductive reachable : St → Prop :=
| reachable_mount p t tw : reachable (mount p (initial_page t tw))
| reachable_step e st : reachable st → reachable (step e st).

(** The players that have been constructed and not destroyed. *)
Definition live_players (st : St) : list nat :=
  filter (λ i, (destroyed <$> players (page st) !! i) = Some false)
         (seq 0 (length (players (page st)))).
End Machine.

(** ** A test double of the SDK

    A player that remembers what it was told.  Its constructor throws when
    the options select no content, and [seek] throws on a negative
    timestamp.  It instantiates the theorems below on concrete runs. *)
Module Fake.
Record Player : Type := {
  f_channel : string;
  f_volume : number;
  f_muted : bool;
  f_time : number;
  f_playing : bool;
  f_gone : bool
}.

Definition construct (id : string) (o : TwitchPlayerOptions) :
    Completion Player :=
  match opt_channel o, opt_video o, opt_collection o with
  | None, None, None => Throw "no content"
  | c, _, _ =>
      Normal {| f_channel := default "" c; f_volume := 1%Q;
                f_muted := false; f_time := 0%Q; f_playing := false;
                f_gone := false |}
  end.

Definition playing (b : bool) (x : Player) : Player :=
  {| f_channel := f_channel x; f_volume := f_volume x;
     f_muted := f_muted x; f_time := f_time x; f_playing := b;
     f_gone := f_gone x |}.

#[global] Instance sdk : Sdk.TwitchPlayerInstance Player := {|
  Sdk.Player := construct;
  Sdk.pause := λ x, Normal (playing false x);
  Sdk.play := λ x, Normal (playing true x);
  Sdk.seek := λ t x,
    if decide (t = (-1)%Q) then Throw "bad timestamp" else
    Normal {| f_channel := f_channel x; f_volume := f_volume x;
              f_muted := f_muted x; f_time := t;
              f_playing := f_playing x; f_gone := f_gone x |};
  Sdk.setChannel := λ c x,
    Normal {| f_channel := c; f_volume := f_volume x;
              f_muted := f_muted x; f_time := f_time x;
              f_playing := f_playing x; f_gone := f_gone x |};
  Sdk.setVideo := λ _ _ x, Normal x;
  Sdk.getMuted := λ x, Normal (f_muted x);
  Sdk.setMuted := λ m x,
    Normal {| f_channel := f_channel x; f_volume := f_volume x;
              f_muted := m; f_time := f_time x;
              f_playing := f_playing x; f_gone := f_gone x |};
  Sdk.getVolume := λ x, Normal (f_volume x);
  Sdk.setVolume := λ v x,
    Normal {| f_channel := f_channel x; f_volume := v;
              f_muted := f_muted x; f_time := f_time x;
              f_playing := f_playing x; f_gone := f_gone x |};
  Sdk.getChannel := λ x, Normal (f_channel x);
  Sdk.getCurrentTime := λ x, Normal (f_time x);
  Sdk.getDuration := λ x, Normal 0%Q;
  Sdk.destroy := λ x,
    {| f_channel := f_channel x; f_volume := f_volume x;
       f_muted := f_muted x; f_time := f_time x;
       f_playing := false; f_gone := true |}
|}.

(** Props that select a channel and pass all five callbacks. *)
Definition watch (c : string) : TwitchPlayerProps :=
  {| channel := Some c; video := None; collection := None;
     width := None; height := None;
     onReady := Some 1%nat; onPlay := Some 2%nat; onPause := Some 3%nat;
     onEnded := Some 4%nat; onSeek := Some 5%nat |}.

(** Props that select nothing: the constructor throws on them. *)
Definition nothing : TwitchPlayerProps :=
  {| channel := None; video := None; collection := None;
     width := None; height := None;
     onReady := None; onPlay := None; onPause := None;
     onEnded := None; onSeek := None |}.

(** A widget mounted at clock reading [t] on a page with or without the
    SDK global. *)
Definition mounted_at (t : Z) (tw : bool) (p : TwitchPlayerProps) :
    State Player :=
  mount p (initial_page t tw).
End Fake.

(** ** Notions used by the statements *)

Section Notions.
Context {I : Type} `{!Sdk.TwitchPlayerInstance I}.
Implicit Types st : State I.

(** The guard of the handle fails: no player, or not ready. *)
Definition not_delegating st : Prop :=
  playerRef (refs st) = None ∨ isPlayerReady (hooks st) = false.

(** The listeners of a player created by [loadTwitchPlayer p]. *)
Definition bridge (p : TwitchPlayerProps) : list (string * Listener) :=
  [("ready", ReadyListener (onReady p));
   ("play", PlayListener (onPlay p));
   ("pause", PauseListener (onPause p));
   ("ended", EndedListener (onEnded p));
   ("seek", SeekListener (onSeek p))].

(** [cb?.(args)] as the list of calls it adds to the log. *)
Definition calls_of (cb : option Callback) (args : list number) :
    list HostCall :=
  match cb with
  | Some f => [Called f args]
  | None => []
  end.

(** The state in which [loadTwitchPlayer] calls the constructor. *)
Definition before_construct st : State I :=
  on_page (λ g, page_divIds (divIds g ++ [playerId_of (now (page st))]) g)
    (on_refs (refs_containerRef
                (Some (container_html (playerId_of (now (page st))))))
             (exec destroy_current_player st)).

(** The state the [catch] block leaves. *)
Definition failed (err : string) (st : State I) : State I :=
  on_page (λ g, page_console
                  (console g ++ ["Twitch Player Error: " +:+ err]) g)
    (on_hooks (hooks_isPlayerReady false)
       (on_hooks (hooks_isLoading false)
          (on_hooks (hooks_error (Some "Failed to initialize Twitch player"))
             st))).

(** The state a successful construction leaves. *)
Definition constructed (p : TwitchPlayerProps) (d : I) (st : State I) :
    State I :=
  on_page (λ g, page_players
                  (players g ++
                   [{| elementId := playerId_of (now (page st));
                       options := options_of p; listeners := bridge p;
                       destroyed := false; impl := d |}]) g)
    (on_refs (refs_playerRef (Some (length (players (page st))))) st).

(** The widget shows the error surface with message [msg]. *)
Definition errored_with (msg : string) st : Prop :=
  error (hooks st) = Some msg ∧
  isPlayerReady (hooks st) = false ∧
  isLoading (hooks st) = false ∧
  render st = ErrorContainer (width_of (props st)) (height_of (props st))
                             ("Error: " +:+ msg).

(** The constructor threw on the way from [st] to [st']: the error
    surface is shown, no player is owned or live, no player object and no
    script was added, and the handle's mutators do nothing. *)
Definition instantiation_failed st st' : Prop :=
  errored_with "Failed to initialize Twitch player" st' ∧
  playerRef (refs st') = None ∧
  live_players st' = [] ∧
  length (players (page st')) = length (players (page st)) ∧
  length (head (page st')) = length (head (page st)) ∧
  ∀ c, mutator c st' = (Normal tt, st').

(** Pointer activity that reaches [handleMouseActivity]: a move or a click
    on the container, or a click on the play/pause button when the
    controls overlay is rendered. *)
Definition activity (e : PointerEvent) st : Prop :=
  e = MouseMove ∨ e = Click ∨
  (e = ButtonClick ∧ isPlayerReady (hooks st) = true).

(** What holds between any two events of a widget's life. *)
Record Inv st : Prop := {
  inv_own : ∀ i o, players (page st) !! i = Some o →
    destroyed o = false → playerRef (refs st) = Some i;
  inv_ref : ∀ i, playerRef (refs st) = Some i →
    ∃ o, players (page st) !! i = Some o ∧ destroyed o = false;
  inv_bridge : ∀ i o, players (page st) !! i = Some o →
    ∃ p, options o = options_of p ∧ listeners o = bridge p;
  inv_unmounted : mounted st = false →
    playerRef (refs st) = None ∧ containerRef (refs st) = None;
  inv_timer :
    match hideControlsTimeoutRef (refs st) with
    | Some id => ∃ t, timeouts (page st) = [(id, t)]
    | None => timeouts (page st) = []
    end;
  inv_error : ∀ e, error (hooks st) = Some e →
    e ≠ "" ∧ isPlayerReady (hooks st) = false;
  inv_ids : ∀ id, id ∈ divIds (page st) →
    ∃ t, (t ≤ now (page st))%Z ∧ id = playerId_of t
}.
End Notions.

(** What a run of code that touches only the hooks and the host log leaves
    alone. *)
Definition same_outside_hooks_and_calls {I : Type} (st' st : State I) : Prop :=
  props st' = props st ∧ mounted st' = mounted st ∧ refs st' = refs st ∧
  now (page st') = now (page st) ∧ Twitch (page st') = Twitch (page st) ∧
  head (page st') = head (page st) ∧
  timeouts (page st') = timeouts (page st) ∧
  timeoutSeq (page st') = timeoutSeq (page st) ∧
  players (page st') = players (page st) ∧
  divIds (page st') = divIds (page st) ∧
  console (page st') = console (page st).

(** How the hooks [h'] after a piece of code relate to the hooks [h] before
    it: the loading flag is never set back to true, the error is kept,
    cleared or set to one of the two messages, and, where [paused_fixed], the
    paused flag is kept. *)
Definition hooks_advance (paused_fixed : bool) (h h' : Hooks) : Prop :=
  (isLoading h = false → isLoading h' = false) ∧
  (paused_fixed = true → isPaused h' = isPaused h) ∧
  (error h' = error h ∨ error h' = None ∨
   error h' = Some "Failed to initialize Twitch player" ∨
   error h' = Some "Failed to load Twitch embed script").

(** Is the event one of the SDK's? *)
Definition is_sdk_event (e : Event) : bool :=
  match e with
  | SdkEvent _ _ => true
  | _ => false
  end.

(** The SDK method behind each mutator of the handle; [togglePlayPause]
    chooses by the paused flag. *)
Definition method_of {I : Type} `{!Sdk.TwitchPlayerInstance I}
    (c : Mutator) (paused : bool) : I → Completion I :=
  match c with
  | CallPlay => Sdk.play
  | CallPause => Sdk.pause
  | CallTogglePlayPause => if paused then Sdk.play else Sdk.pause
  | CallSeek t => Sdk.seek t
  | CallSetVolume v => Sdk.setVolume v
  | CallSetMuted m => Sdk.setMuted m
  | CallSetChannel c => Sdk.setChannel c
  | CallSetVideo v t => Sdk.setVideo v t
  end.

(** ** The application shell

    [App] reads the [channel] query parameter once, in its mount effect, and
    renders the player for it or a placeholder.  The browser's
    [URLSearchParams] is taken as the list of (name, value) pairs it parsed,
    in order; [get] returns the first value of a name, or null. *)
Module App.
Definition URLSearchParams : Type := list (string * string).

Fixpoint get (urlParams : URLSearchParams) (name : string) : option string :=
  match urlParams with
  | [] => None
  | (n, v) :: rest => if decide (n = name) then Some v else get rest name
  end.

(** The effect, on the [channel] state cell: [if (channelParam)] is false
    for null and for the empty string. *)
Definition effect (urlParams : URLSearchParams) (chan : string) : string :=
  match get urlParams "channel" with
  | Some channelParam =>
      if decide (channelParam = "") then chan else channelParam
  | None => chan
  end.

Inductive View : Type :=
| Player (p : TwitchPlayerProps)       (* <TwitchPlayer channel={channel} /> *)
| NoChannel (text : string).           (* the no-channel placeholder *)

Definition render (chan : string) : View :=
  if decide (chan = "") then NoChannel "Enter a channel name"
  else Player {| channel := Some chan; video := None; collection := None;
                 width := None; height := None;
                 onReady := None; onPlay := None; onPause := None;
                 onEnded := None; onSeek := None |}.

(** The state after the mount: the initial value, then the effect. *)
Definition mount (urlParams : URLSearchParams) : string :=
  effect urlParams "".
End App.

Arguments playerId_of : simpl never.
Arguments container_html : simpl never.

(** * Proofs *)

(** Unfold the monadic code down to record updates. *)
Ltac js :=
  unfold exec, loadTwitchPlayer, destroy_current_player, cleanup, effect,
    clearHideTimeout, handleMouseActivity, handleMouseLeave, handlePlayPause,
    hideControls, script_onerror, new_Twitch_Player, addEventListener,
    destroy, invoke, query, call, console_error, Date_now, clearTimeout,
    setTimeout, record_divId, set_innerHTML, set_hideControlsTimeoutRef,
    set_playerRef, setShowControls, setIsPaused, setIsPlayerReady, setError,
    setIsLoading, appendChild_head, try_catch, bind, ret, gets, modify, throw
    in *;
  cbn in *.

(** ** The SDK's players under the component's operations *)

Section Lifecycle.
Context {I : Type} `{!Sdk.TwitchPlayerInstance I}.
Implicit Types st : State I.

Lemma destroy_current_player_returns st :
  (destroy_current_player st).1 = Normal tt.
Proof. js. by destruct (playerRef (refs st)). Qed.

Lemma clearHideTimeout_returns st : (clearHideTimeout st).1 = Normal tt.
Proof. js. by destruct (hideControlsTimeoutRef (refs st)). Qed.

Lemma Inv_destroy_current_player st :
  Inv st → Inv (exec destroy_current_player st).
Proof.
  intros HI. js.
  destruct (playerRef (refs st)) as [j|] eqn:Hj; cbn; [|done].
  destruct HI as [Hown Href Hbr Hun Htm Her Hid].
  constructor; cbn; try done.
  - intros i o. rewrite list_lookup_alter. case_decide; subst.
    + destruct (players (page st) !! i); [|done]. cbn. by intros [= <-].
    + intros Ho Hd. specialize (Hown _ _ Ho Hd). congruence.
  - intros i o. rewrite list_lookup_alter.
    case_decide; subst; [|by apply Hbr].
    destruct (players (page st) !! i) as [o'|] eqn:Ho'; [|done].
    cbn. intros [= <-]. cbn. by apply (Hbr i).
  - intros ?. by destruct Hun.
  - intros e He. by destruct (Her e He).
Qed.

(** After the block every player of the page is destroyed and the ref is
    cleared; nothing but the players, the ref and the ready flag moves. *)
Lemma destroy_current_player_spec st :
  Inv st →
  let st' := exec destroy_current_player st in
  playerRef (refs st') = None ∧
  (∀ i o, players (page st') !! i = Some o → destroyed o = true) ∧
  length (players (page st')) = length (players (page st)) ∧
  containerRef (refs st') = containerRef (refs st) ∧
  hideControlsTimeoutRef (refs st') = hideControlsTimeoutRef (refs st) ∧
  isLoading (hooks st') = isLoading (hooks st) ∧
  isPaused (hooks st') = isPaused (hooks st) ∧
  showControls (hooks st') = showControls (hooks st) ∧
  error (hooks st') = error (hooks st) ∧
  isPlayerReady (hooks st') =
    match playerRef (refs st) with
    | Some _ => false
    | None => isPlayerReady (hooks st)
    end ∧
  mounted st' = mounted st ∧ props st' = props st ∧
  now (page st') = now (page st) ∧ Twitch (page st') = Twitch (page st) ∧
  head (page st') = head (page st) ∧
  timeouts (page st') = timeouts (page st) ∧
  divIds (page st') = divIds (page st) ∧
  hostCalls (page st') = hostCalls (page st) ∧
  console (page st') = console (page st).
Proof.
  intros HI. js.
  destruct (playerRef (refs st)) as [j|] eqn:Hj; cbn;
    repeat split; try done.
  - intros i o. rewrite list_lookup_alter. case_decide; subst.
    + destruct (players (page st) !! i); [|done]. cbn. by intros [= <-].
    + intros Ho. destruct (destroyed o) eqn:Hd; [done|].
      pose proof (inv_own _ HI _ _ Ho Hd). congruence.
  - by rewrite length_alter.
  - intros i o Ho. destruct (destroyed o) eqn:Hd; [done|].
    pose proof (inv_own _ HI _ _ Ho Hd). congruence.
Qed.

(** The five [addEventListener] calls on a player just appended. *)
Lemma listeners_registered p (l : list (PlayerObj I)) x d :
  alter (λ o, player_listeners
                (listeners o ++ [("seek", SeekListener (onSeek p))]) o)
    (length l)
  (alter (λ o, player_listeners
                (listeners o ++ [("ended", EndedListener (onEnded p))]) o)
    (length l)
  (alter (λ o, player_listeners
                (listeners o ++ [("pause", PauseListener (onPause p))]) o)
    (length l)
  (alter (λ o, player_listeners
                (listeners o ++ [("play", PlayListener (onPlay p))]) o)
    (length l)
  (alter (λ o, player_listeners
                (listeners o ++ [("ready", ReadyListener (onReady p))]) o)
    (length l)
    (l ++ [{| elementId := x; options := options_of p;
              listeners := []; destroyed := false; impl := d |}])%list))))
  = (l ++ [{| elementId := x; options := options_of p;
              listeners := bridge p; destroyed := false; impl := d |}])%list.
Proof.
  rewrite <- (Nat.add_0_r (length l)). by rewrite !alter_app_r.
Qed.

(** [loadTwitchPlayer], case by case. *)
Lemma loadTwitchPlayer_cases p st :
  exec (loadTwitchPlayer p) st =
  match containerRef (refs st) with
  | None => st
  | Some _ =>
      if Twitch (page st) then
        match Sdk.Player (playerId_of (now (page st))) (options_of p) with
        | Normal d => constructed p d (before_construct st)
        | Throw e => failed e (before_construct st)
        end
      else failed "TypeError" (before_construct st)
  end.
Proof.
  unfold exec, loadTwitchPlayer. unfold bind at 1. unfold gets at 1.
  destruct (containerRef (refs st)) as [c|] eqn:Hc; [|done].
  unfold bind at 1. unfold before_construct, exec.
  pose proof (destroy_current_player_returns st) as Hr.
  assert (now (page (destroy_current_player st).2) = now (page st)
          ∧ Twitch (page (destroy_current_player st).2) = Twitch (page st))
    as [Hn Ht].
  { js. by destruct (playerRef (refs st)). }
  destruct (destroy_current_player st) as [r st1].
  cbn [fst snd] in Hr, Hn, Ht |- *. subst r.
  unfold bind, Date_now, gets, set_innerHTML, record_divId, modify,
    try_catch, new_Twitch_Player, set_playerRef, addEventListener.
  cbn. rewrite Hn, Ht.
  destruct (Twitch (page st)); [|done].
  destruct (Sdk.Player _ _) as [d|e]; [|done]. cbn.
  destruct st1 as [pr m h r [n tw hd ts tq pl di hc co]].
  cbn in Hn. subst n. generalize (now (page st)). intros t.
  cbv [constructed on_page on_refs page_players page_divIds
       refs_containerRef refs_playerRef page refs hooks props mounted
       players now Twitch head timeouts timeoutSeq divIds hostCalls
       console containerRef playerRef hideControlsTimeoutRef].
  do 2 f_equal. apply listeners_registered.
Qed.
End Lifecycle.

Section Invariant.
Context {I : Type} `{!Sdk.TwitchPlayerInstance I}.
Implicit Types st : State I.

(** [Inv] reads ten cells of the state and ignores the rest. *)
Lemma Inv_frame st st' :
  players (page st') = players (page st) →
  playerRef (refs st') = playerRef (refs st) →
  mounted st' = mounted st →
  containerRef (refs st') = containerRef (refs st) →
  hideControlsTimeoutRef (refs st') = hideControlsTimeoutRef (refs st) →
  timeouts (page st') = timeouts (page st) →
  error (hooks st') = error (hooks st) →
  isPlayerReady (hooks st') = isPlayerReady (hooks st) →
  divIds (page st') = divIds (page st) →
  now (page st') = now (page st) →
  Inv st → Inv st'.
Proof.
  intros E1 E2 E3 E4 E5 E6 E7 E8 E9 E10 [Hown Href Hbr Hun Htm Her Hid].
  constructor; rewrite ?E1, ?E2, ?E3, ?E4, ?E5, ?E6, ?E7, ?E8, ?E9, ?E10;
    done.
Qed.

Lemma Inv_before_construct st :
  containerRef (refs st) ≠ None → Inv st → Inv (before_construct st).
Proof.
  intros Hc HI.
  pose proof (Inv_destroy_current_player st HI) as HI1.
  pose proof (destroy_current_player_spec st HI) as HS. cbn in HS.
  destruct HS as (_ & _ & _ & Hc1 & _ & _ & _ & _ & _ & _ & Hm & _ & Hn & _).
  unfold before_construct.
  destruct HI1 as [Hown Href Hbr Hun Htm Her Hid].
  constructor; cbn; try done.
  - intros Hm1. rewrite Hm in Hm1.
    destruct (inv_unmounted _ HI Hm1) as [_ ?]. done.
  - intros id [Hin | ->%list_elem_of_singleton]%elem_of_app; [by apply Hid|].
    exists (now (page st)). by rewrite Hn.
Qed.

Lemma Inv_failed err st : Inv st → Inv (failed err st).
Proof.
  intros [Hown Href Hbr Hun Htm Her Hid]. constructor; cbn; try done.
  by intros e [= <-].
Qed.

Lemma Inv_constructed p d st :
  playerRef (refs st) = None → mounted st = true →
  Inv st → Inv (constructed p d st).
Proof.
  intros Hp Hm [Hown Href Hbr Hun Htm Her Hid].
  constructor; cbn; try done.
  - intros i o [[_ Ho] | [-> _]]%lookup_snoc_Some Hd; [|done].
    specialize (Hown _ _ Ho Hd). congruence.
  - intros i [= <-]. eexists. split.
    + apply lookup_snoc_Some. by right.
    + done.
  - intros i o [[_ Ho] | [-> <-]]%lookup_snoc_Some; [by eapply Hbr|].
    by exists p.
  - congruence.
Qed.

Lemma Inv_loadTwitchPlayer p st :
  Inv st → Inv (exec (loadTwitchPlayer p) st).
Proof.
  intros HI. rewrite loadTwitchPlayer_cases.
  destruct (containerRef (refs st)) as [c|] eqn:Hc; [|done].
  assert (Inv (before_construct st)) as HB.
  { apply Inv_before_construct; [congruence|done]. }
  destruct (Twitch (page st)); [|by apply Inv_failed].
  destruct (Sdk.Player _ _); [|by apply Inv_failed].
  destruct (destroy_current_player_spec st HI)
    as (Hp & _ & _ & _ & _ & _ & _ & _ & _ & _ & Hm & _).
  apply Inv_constructed; [done| |done].
  destruct (mounted st) eqn:Hm'; [done|].
  destruct (inv_unmounted _ HI Hm'). congruence.
Qed.

Lemma Inv_clearHideTimeout st : Inv st → Inv (exec clearHideTimeout st).
Proof.
  intros HI. js.
  destruct (hideControlsTimeoutRef (refs st)) as [id|] eqn:Hh; [|done].
  destruct HI as [Hown Href Hbr Hun Htm Her Hid]. rewrite Hh in Htm.
  destruct Htm as [t Ht].
  constructor; cbn; try done.
  rewrite Ht. cbn. rewrite decide_False; [done|]. cbn. tauto.
Qed.

Lemma Inv_cleanup st : Inv st → Inv (exec cleanup st).
Proof.
  intros HI. unfold exec, cleanup, bind.
  pose proof (Inv_clearHideTimeout st HI) as HI1.
  pose proof (clearHideTimeout_returns st) as Hr. unfold exec in HI1.
  destruct (clearHideTimeout st) as [r st1]. cbn in Hr. subst r.
  by apply Inv_destroy_current_player.
Qed.

Lemma Inv_effect p st : Inv st → Inv (exec (effect p) st).
Proof.
  intros HI. unfold exec, effect, bind, gets.
  destruct (Twitch (page st)); cbn; [by apply Inv_loadTwitchPlayer|].
  by apply (Inv_frame st).
Qed.

Lemma Inv_script_onerror st : Inv st → Inv (exec script_onerror st).
Proof.
  intros [Hown Href Hbr Hun Htm Her Hid]. constructor; cbn; try done.
  by intros e [= <-].
Qed.

Lemma Inv_call cb args st : Inv st → Inv (exec (call cb args) st).
Proof. intros HI. destruct cb; [|done]. by apply (Inv_frame st). Qed.

Lemma Inv_run_listener i l st : Inv st → Inv (exec (run_listener i l) st).
Proof.
  intros HI. destruct l; cbn.
  - unfold exec, bind; cbn. apply (Inv_call cb []).
    destruct HI as [Hown Href Hbr Hun Htm Her Hid].
    constructor; cbn; done.
  - unfold exec, bind; cbn. apply (Inv_call cb []). by apply (Inv_frame st).
  - unfold exec, bind; cbn. apply (Inv_call cb []). by apply (Inv_frame st).
  - unfold exec, bind; cbn. apply (Inv_call cb []). by apply (Inv_frame st).
  - unfold exec, bind, query.
    destruct (players (page st) !! i) as [o|]; [|done].
    destruct (Sdk.getCurrentTime (impl o)) as [t|]; [|done].
    by apply (Inv_call cb [t]).
Qed.

Lemma Inv_emit i name st : Inv st → Inv (emit i name st).
Proof.
  unfold emit. destruct (players (page st) !! i) as [o|]; [|done].
  generalize (listeners o). intros ls. revert st.
  induction ls as [|[n l] ls IH]; intros st HI; [done|].
  cbn. apply IH. case_decide; [|done]. by apply Inv_run_listener.
Qed.

Lemma Inv_invoke i m st : Inv st → Inv (exec (invoke i m) st).
Proof.
  intros HI. unfold exec, invoke.
  destruct (players (page st) !! i) as [o|] eqn:Ho; [|done].
  destruct (m (impl o)) as [d|]; [|done]. cbn.
  destruct HI as [Hown Href Hbr Hun Htm Her Hid].
  assert (∀ j o', <[i:=player_impl d o]> (players (page st)) !! j = Some o' →
            ∃ o0, players (page st) !! j = Some o0 ∧
                  destroyed o' = destroyed o0 ∧ options o' = options o0 ∧
                  listeners o' = listeners o0) as Hl.
  { intros j o'. rewrite list_lookup_insert. case_decide as Hij.
    - destruct Hij as [-> _]. intros [= <-]. by exists o.
    - intros ?. by exists o'. }
  constructor; cbn; try done.
  - intros j o' (o0 & Ho0 & Hd & _)%Hl. rewrite Hd. by apply Hown.
  - intros j (o0 & Ho0 & Hd)%Href.
    destruct (decide (i = j)) as [->|Hne].
    + exists (player_impl d o). rewrite list_lookup_insert_eq.
      * split; [done|]. cbn. congruence.
      * by eapply lookup_lt_Some.
    + exists o0. by rewrite list_lookup_insert_ne.
  - intros j o' (o0 & Ho0 & _ & Hop & Hli)%Hl. rewrite Hop, Hli.
    by eapply Hbr.
Qed.

Lemma Inv_mutator c st : Inv st → Inv (exec (mutator c) st).
Proof.
  intros HI.
  destruct c; cbn; unfold TwitchPlayerRef.play, TwitchPlayerRef.pause,
    TwitchPlayerRef.togglePlayPause, TwitchPlayerRef.seek,
    TwitchPlayerRef.setVolume, TwitchPlayerRef.setMuted,
    TwitchPlayerRef.setChannel, TwitchPlayerRef.setVideo;
    unfold exec, bind, gets;
    destruct (playerRef_and_isPlayerReady st); try done;
    try destruct (isPaused (hooks st)); by apply Inv_invoke.
Qed.
End Invariant.

Section Overlay.
Context {I : Type} `{!Sdk.TwitchPlayerInstance I}.
Implicit Types st : State I.

(** What the two overlay handlers leave, given at most one pending
    timeout: the one the ref holds. *)
Lemma handleMouseActivity_spec st :
  Inv st →
  let st' := exec handleMouseActivity st in
  showControls (hooks st') = true ∧
  timeouts (page st') =
    [(S (timeoutSeq (page st)), now (page st) + 3000)] ∧
  hideControlsTimeoutRef (refs st') = Some (S (timeoutSeq (page st))) ∧
  now (page st') = now (page st) ∧
  players (page st') = players (page st) ∧
  playerRef (refs st') = playerRef (refs st) ∧
  mounted st' = mounted st ∧
  containerRef (refs st') = containerRef (refs st) ∧
  error (hooks st') = error (hooks st) ∧
  isPlayerReady (hooks st') = isPlayerReady (hooks st) ∧
  divIds (page st') = divIds (page st).
Proof.
  intros HI. pose proof (inv_timer _ HI) as Htm. js.
  destruct (hideControlsTimeoutRef (refs st)) as [id|] eqn:Hh; cbn.
  - destruct Htm as [t ->]. cbn.
    rewrite decide_False by (cbn; tauto). by repeat split.
  - rewrite Htm. by repeat split.
Qed.

Lemma handleMouseLeave_spec st :
  Inv st →
  let st' := exec handleMouseLeave st in
  showControls (hooks st') = false ∧
  timeouts (page st') = [] ∧
  hideControlsTimeoutRef (refs st') = None ∧
  now (page st') = now (page st) ∧
  players (page st') = players (page st) ∧
  playerRef (refs st') = playerRef (refs st) ∧
  mounted st' = mounted st ∧
  containerRef (refs st') = containerRef (refs st) ∧
  error (hooks st') = error (hooks st) ∧
  isPlayerReady (hooks st') = isPlayerReady (hooks st) ∧
  divIds (page st') = divIds (page st).
Proof.
  intros HI. pose proof (inv_timer _ HI) as Htm. js.
  destruct (hideControlsTimeoutRef (refs st)) as [id|] eqn:Hh; cbn.
  - destruct Htm as [t ->]. cbn.
    rewrite decide_False by (cbn; tauto). by repeat split.
  - rewrite Htm. by repeat split.
Qed.

Lemma Inv_handleMouseActivity st :
  Inv st → Inv (exec handleMouseActivity st).
Proof.
  intros HI.
  destruct (handleMouseActivity_spec st HI)
    as (_ & Ht & Hh & Hn & Hp & Hr & Hm & Hc & He & Hy & Hd).
  destruct HI as [Hown Href Hbr Hun Htm Her Hid].
  constructor; rewrite ?Ht, ?Hh, ?Hn, ?Hp, ?Hr, ?Hm, ?Hc, ?He, ?Hy, ?Hd;
    eauto.
Qed.

Lemma Inv_handleMouseLeave st : Inv st → Inv (exec handleMouseLeave st).
Proof.
  intros HI.
  destruct (handleMouseLeave_spec st HI)
    as (_ & Ht & Hh & Hn & Hp & Hr & Hm & Hc & He & Hy & Hd).
  destruct HI as [Hown Href Hbr Hun Htm Her Hid].
  constructor; rewrite ?Ht, ?Hh, ?Hn, ?Hp, ?Hr, ?Hm, ?Hc, ?He, ?Hy, ?Hd;
    eauto.
Qed.

Lemma Inv_handlePlayPause st : Inv st → Inv (exec handlePlayPause st).
Proof.
  intros HI. unfold exec, handlePlayPause. unfold bind at 1 2 3, gets.
  destruct (playerRef_and_isPlayerReady st) as [i|].
  - assert (∀ m, Inv (exec (invoke i m ;; handleMouseActivity) st)) as Hm.
    { intros m. pose proof (Inv_invoke i m st HI) as HI1.
      unfold exec, bind in *. destruct (invoke i m st) as [[[]|e] st1]; cbn in *.
      - by apply Inv_handleMouseActivity.
      - done. }
    destruct (isPaused (hooks st)); apply Hm.
  - by apply Inv_handleMouseActivity.
Qed.

(** Time passing, given at most one pending timeout. *)
Lemma elapse_spec (d : N) st :
  Inv st →
  let st' := elapse d st in
  let t := now (page st) + Z.of_N d in
  now (page st') = t ∧
  players (page st') = players (page st) ∧
  playerRef (refs st') = playerRef (refs st) ∧
  mounted st' = mounted st ∧
  containerRef (refs st') = containerRef (refs st) ∧
  error (hooks st') = error (hooks st) ∧
  isPlayerReady (hooks st') = isPlayerReady (hooks st) ∧
  divIds (page st') = divIds (page st) ∧
  head (page st') = head (page st) ∧
  match timeouts (page st) with
  | (id, due) :: _ =>
      if decide (due ≤ t)%Z then
        timeouts (page st') = [] ∧
        hideControlsTimeoutRef (refs st') = None ∧
        showControls (hooks st') = false
      else
        timeouts (page st') = timeouts (page st) ∧
        hideControlsTimeoutRef (refs st') = hideControlsTimeoutRef (refs st) ∧
        showControls (hooks st') = showControls (hooks st)
  | [] =>
      timeouts (page st') = [] ∧
      hideControlsTimeoutRef (refs st') = hideControlsTimeoutRef (refs st) ∧
      showControls (hooks st') = showControls (hooks st)
  end.
Proof.
  intros HI. pose proof (inv_timer _ HI) as Htm. unfold elapse. cbn zeta.
  destruct (hideControlsTimeoutRef (refs st)) as [id|] eqn:Hh.
  - destruct Htm as [due Hto]. cbn. rewrite !Hto.
    rewrite !filter_cons, !filter_nil. cbn [snd].
    destruct (decide (due ≤ now (page st) + Z.of_N d)%Z) as [Hle|Hgt].
    + cbn. rewrite Hto, filter_cons, filter_nil. cbn [snd].
      rewrite decide_False by tauto. by repeat split.
    + cbn. rewrite Hto, filter_cons, filter_nil. cbn [snd].
      rewrite decide_True by done. by repeat split.
  - cbn. rewrite !Htm. cbn. rewrite ?Htm. by repeat split.
Qed.

Lemma Inv_elapse d st : Inv st → Inv (elapse d st).
Proof.
  intros HI.
  destruct (elapse_spec d st HI)
    as (Hn & Hp & Hr & Hm & Hc & He & Hy & Hd & _ & Ht).
  pose proof (inv_timer _ HI) as Htm.
  destruct HI as [Hown Href Hbr Hun _ Her Hid].
  constructor; rewrite ?Hn, ?Hp, ?Hr, ?Hm, ?Hc, ?He, ?Hy, ?Hd; eauto.
  - destruct (hideControlsTimeoutRef (refs st)) as [id|] eqn:Hh.
    + destruct Htm as [due Hto]. rewrite Hto in Ht.
      case_decide; destruct Ht as (-> & -> & _); eauto.
    + rewrite Htm in Ht. by destruct Ht as (-> & -> & _).
  - intros id (t & Hle & ->)%Hid. exists t. split; [lia|done].
Qed.
End Overlay.

Section Reachable.
Context {I : Type} `{!Sdk.TwitchPlayerInstance I}.
Implicit Types st : State I.

Lemma Inv_commit st : Inv st → Inv (commit st).
Proof.
  intros HI. unfold commit. destruct (mounted st) eqn:Hm; [|done].
  destruct HI as [Hown Href Hbr Hun Htm Her Hid].
  destruct (render st); [|destruct (containerRef (refs st))]; try done;
    constructor; cbn; try done; congruence.
Qed.

Lemma Inv_set_props p st : Inv st → Inv (set_props p st).
Proof.
  intros HI. unfold set_props. destruct (mounted st); [|done].
  case_decide; [by apply (Inv_frame st)|].
  apply Inv_effect, Inv_cleanup. by apply (Inv_frame st).
Qed.

Lemma cleanup_playerRef st :
  Inv st → playerRef (refs (exec cleanup st)) = None.
Proof.
  intros HI. unfold exec, cleanup, bind.
  pose proof (Inv_clearHideTimeout st HI) as HI1.
  pose proof (clearHideTimeout_returns st) as Hr. unfold exec in HI1.
  destruct (clearHideTimeout st) as [r st1]. cbn in Hr. subst r.
  apply (destroy_current_player_spec st1 HI1).
Qed.

Lemma Inv_unmount st : Inv st → Inv (unmount st).
Proof.
  intros HI. unfold unmount. destruct (mounted st); [|done].
  pose proof (cleanup_playerRef st HI) as Hp.
  destruct (Inv_cleanup st HI) as [Hown Href Hbr Hun Htm Her Hid].
  constructor; cbn; try done.
Qed.

Lemma Inv_script_load k st : Inv st → Inv (script_load k st).
Proof.
  intros HI. unfold script_load.
  destruct (head (page st) !! k) as [s|]; [|done].
  destruct (status s); try done.
  apply Inv_loadTwitchPlayer. by apply (Inv_frame st).
Qed.

Lemma Inv_script_error k st : Inv st → Inv (script_error k st).
Proof.
  intros HI. unfold script_error.
  destruct (head (page st) !! k) as [s|]; [|done].
  destruct (status s); try done.
  apply Inv_script_onerror. by apply (Inv_frame st).
Qed.

Lemma Inv_pointer e st : Inv st → Inv (pointer e st).
Proof.
  intros HI. unfold pointer. destruct (mounted st); [|done].
  destruct (render st) as [| ? ? ? ? controls]; [done|].
  destruct e; [by apply Inv_handleMouseActivity..
              |by apply Inv_handleMouseLeave|].
  destruct controls; [|done].
  by apply Inv_handleMouseActivity, Inv_handlePlayPause.
Qed.

Lemma Inv_step e st : Inv st → Inv (step e st).
Proof.
  intros HI. apply Inv_commit. destruct e.
  - by apply Inv_set_props.
  - by apply Inv_unmount.
  - by apply Inv_script_load.
  - by apply Inv_script_error.
  - by apply Inv_emit.
  - by apply Inv_pointer.
  - by apply Inv_mutator.
  - by apply Inv_elapse.
Qed.

Lemma Inv_mount p t tw : Inv (mount p (initial_page t tw)).
Proof.
  apply Inv_commit, Inv_effect. constructor; cbn; try done.
  intros id Hid. by apply elem_of_nil in Hid.
Qed.

Lemma reachable_Inv st : reachable st → Inv st.
Proof.
  induction 1 as [p t tw|e st _ IH]; [apply Inv_mount|by apply Inv_step].
Qed.
End Reachable.

(** ** The imperative handle *)

Section HandleProofs.
Context {I : Type} `{!Sdk.TwitchPlayerInstance I}.
Implicit Types st : State I.

Lemma guard_fails st :
  not_delegating st → playerRef_and_isPlayerReady st = None.
Proof.
  unfold playerRef_and_isPlayerReady. intros [-> | ->]; [done|].
  by destruct (playerRef (refs st)).
Qed.

Lemma mutator_not_delegating c st :
  not_delegating st → mutator c st = (Normal tt, st).
Proof.
  intros Hg%guard_fails.
  destruct c; cbn; unfold bind, gets; by rewrite Hg.
Qed.

(** C1: each of the eight mutators of the handle, called while the player
    is absent or the ready flag is false, returns normally (it does not
    throw, whatever the SDK would do) and leaves the whole state (widget,
    players, page) exactly as it was. *)
Theorem mutators_silent_when_not_ready st :
  not_delegating st →
  TwitchPlayerRef.play st = (Normal tt, st) ∧
  TwitchPlayerRef.pause st = (Normal tt, st) ∧
  TwitchPlayerRef.togglePlayPause st = (Normal tt, st) ∧
  (∀ t, TwitchPlayerRef.seek t st = (Normal tt, st)) ∧
  (∀ v, TwitchPlayerRef.setVolume v st = (Normal tt, st)) ∧
  (∀ m, TwitchPlayerRef.setMuted m st = (Normal tt, st)) ∧
  (∀ c, TwitchPlayerRef.setChannel c st = (Normal tt, st)) ∧
  (∀ v t, TwitchPlayerRef.setVideo v t st = (Normal tt, st)).
Proof.
  intros Hg. repeat split; intros.
  - exact (mutator_not_delegating CallPlay st Hg).
  - exact (mutator_not_delegating CallPause st Hg).
  - exact (mutator_not_delegating CallTogglePlayPause st Hg).
  - exact (mutator_not_delegating (CallSeek _) st Hg).
  - exact (mutator_not_delegating (CallSetVolume _) st Hg).
  - exact (mutator_not_delegating (CallSetMuted _) st Hg).
  - exact (mutator_not_delegating (CallSetChannel _) st Hg).
  - exact (mutator_not_delegating (CallSetVideo _ _) st Hg).
Qed.

(** C2: called while the player is absent or the ready flag is false,
    [getVolume], [getCurrentTime] and [getDuration] return 0, [getChannel]
    returns the empty string and [getMuted] returns false, none of them
    throwing or changing the state; [isPaused] and [isReady] return the
    hook values in every state, without a call to the player. *)
Theorem accessors_default_when_not_ready st :
  (not_delegating st →
     TwitchPlayerRef.getVolume st = (Normal 0%Q, st) ∧
     TwitchPlayerRef.getCurrentTime st = (Normal 0%Q, st) ∧
     TwitchPlayerRef.getDuration st = (Normal 0%Q, st) ∧
     TwitchPlayerRef.getChannel st = (Normal "", st) ∧
     TwitchPlayerRef.getMuted st = (Normal false, st)) ∧
  TwitchPlayerRef.isPaused st = (Normal (isPaused (hooks st)), st) ∧
  TwitchPlayerRef.isReady st = (Normal (isPlayerReady (hooks st)), st).
Proof.
  split; [|done]. intros Hg%guard_fails.
  unfold TwitchPlayerRef.getVolume, TwitchPlayerRef.getCurrentTime,
    TwitchPlayerRef.getDuration, TwitchPlayerRef.getChannel,
    TwitchPlayerRef.getMuted, bind, gets.
  by rewrite Hg.
Qed.
End HandleProofs.

(** A widget mounted on a page without the SDK: no player yet. *)
Lemma mutators_silent_when_not_ready_witness :
  let st := Fake.mounted_at 1000 false (Fake.watch "abc") in
  not_delegating st ∧ TwitchPlayerRef.play st = (Normal tt, st).
Proof.
  cbn zeta.
  assert (not_delegating (Fake.mounted_at 1000 false (Fake.watch "abc")))
    as Hg by (left; vm_compute; reflexivity).
  split; [exact Hg|].
  destruct (mutators_silent_when_not_ready
              (Fake.mounted_at 1000 false (Fake.watch "abc")) Hg)
    as (Hplay & _).
  exact Hplay.
Defined.

(** A widget whose player exists but has not reported ready. *)
Lemma accessors_default_when_not_ready_witness :
  let st := Fake.mounted_at 1000 true (Fake.watch "abc") in
  playerRef (refs st) = Some 0%nat ∧ not_delegating st ∧
  TwitchPlayerRef.getVolume st = (Normal 0%Q, st).
Proof.
  cbn zeta.
  assert (not_delegating (Fake.mounted_at 1000 true (Fake.watch "abc")))
    as Hg by (right; vm_compute; reflexivity).
  split; [vm_compute; reflexivity|]. split; [exact Hg|].
  destruct (accessors_default_when_not_ready
              (Fake.mounted_at 1000 true (Fake.watch "abc")))
    as (Hdef & _).
  destruct (Hdef Hg) as (Hvol & _).
  exact Hvol.
Defined.

(** ** One live player at most *)

Section Ownership.
Context {I : Type} `{!Sdk.TwitchPlayerInstance I}.
Implicit Types st : State I.

Lemma elem_of_live_players st i :
  i ∈ live_players st ↔
  ∃ o, players (page st) !! i = Some o ∧ destroyed o = false.
Proof.
  unfold live_players. rewrite list_elem_of_filter, elem_of_seq. split.
  - intros [Hd _]. destruct (players (page st) !! i) as [o|]; [|done].
    exists o. split; [done|]. by injection Hd.
  - intros (o & Ho & Hd). rewrite Ho. cbn. split; [by rewrite Hd|].
    apply lookup_lt_Some in Ho. lia.
Qed.

Lemma live_players_owned st i :
  Inv st → i ∈ live_players st → playerRef (refs st) = Some i.
Proof.
  intros HI (o & Ho & Hd)%elem_of_live_players. by eapply inv_own.
Qed.

Lemma live_players_at_most_one st :
  Inv st → (length (live_players st) ≤ 1)%nat.
Proof.
  intros HI.
  assert (NoDup (live_players st)) as Hnd
    by apply list.NoDup_filter, NoDup_seq.
  pose proof (live_players_owned st) as Hall.
  destruct (live_players st) as [|a [|b l]]; cbn; [lia..|].
  assert (playerRef (refs st) = Some a) as Ha
    by (apply Hall; [done|by left]).
  assert (playerRef (refs st) = Some b) as Hb
    by (apply Hall; [done|by right; left]).
  apply list.NoDup_cons in Hnd as [Hnin _]. destruct Hnin.
  rewrite Ha in Hb. injection Hb as ->. by left.
Qed.

Lemma live_players_nil st :
  (∀ i o, players (page st) !! i = Some o → destroyed o = true) →
  live_players st = [].
Proof.
  intros Hall. destruct (live_players st) as [|a l] eqn:Hl; [done|].
  assert (a ∈ live_players st) as (o & Ho & Hd)%elem_of_live_players
    by (rewrite Hl; by left).
  rewrite (Hall _ _ Ho) in Hd. done.
Qed.

Lemma live_players_unowned st :
  Inv st → playerRef (refs st) = None → live_players st = [].
Proof.
  intros HI Hp. apply live_players_nil. intros i o Ho.
  destruct (destroyed o) eqn:Hd; [done|].
  pose proof (inv_own _ HI _ _ Ho Hd). congruence.
Qed.

Lemma mounted_step_Unmount st : mounted (step Unmount st) = false.
Proof.
  unfold step, unmount. destruct (mounted st) eqn:Hm.
  - unfold commit. cbn. done.
  - unfold commit. by rewrite Hm.
Qed.

(** C3: in every state of a widget's life (after the mount, after any
    event, after the unmount) at most one player is live, and a live player
    is the one [playerRef] holds.  The block that [loadTwitchPlayer] runs
    before it calls the constructor, and that the cleanup runs, leaves no
    live player and a cleared [playerRef]; after an unmount no player is
    live. *)
Theorem at_most_one_live_player st :
  reachable st →
  (length (live_players st) ≤ 1)%nat ∧
  (∀ i, i ∈ live_players st → playerRef (refs st) = Some i) ∧
  live_players (exec destroy_current_player st) = [] ∧
  playerRef (refs (exec destroy_current_player st)) = None ∧
  (∀ p, containerRef (refs st) ≠ None →
        live_players (before_construct st) = [] ∧
        (length (live_players (exec (loadTwitchPlayer p) st)) ≤ 1)%nat) ∧
  live_players (exec cleanup st) = [] ∧
  live_players (step Unmount st) = [].
Proof.
  intros HI%reachable_Inv.
  pose proof (destroy_current_player_spec st HI) as HS. cbn zeta in HS.
  destruct HS as (Hp & Hall & _).
  split; [by apply live_players_at_most_one|].
  split; [intros i; by apply live_players_owned|].
  split; [by apply live_players_nil|].
  split; [done|].
  split; [|split].
  - intros p Hc. split.
    + apply live_players_unowned; [by apply Inv_before_construct|done].
    + by apply live_players_at_most_one, Inv_loadTwitchPlayer.
  - apply live_players_unowned; [by apply Inv_cleanup|].
    by apply cleanup_playerRef.
  - apply live_players_unowned; [by apply Inv_step|].
    apply (inv_unmounted (step Unmount st)); [by apply Inv_step|].
    apply mounted_step_Unmount.
Qed.
End Ownership.

(** A widget whose configuration changed once: the first player is
    destroyed, the second is live. *)
Lemma at_most_one_live_player_witness :
  let st := step (SetProps (Fake.watch "xyz"))
                 (Fake.mounted_at 1000 true (Fake.watch "abc")) in
  destroyed <$> players (page st) = [true; false] ∧
  live_players st = [1%nat] ∧
  (length (live_players st) ≤ 1)%nat.
Proof.
  cbn zeta.
  split; [vm_compute; reflexivity|]. split; [vm_compute; reflexivity|].
  destruct (at_most_one_live_player
              (step (SetProps (Fake.watch "xyz"))
                    (Fake.mounted_at 1000 true (Fake.watch "abc"))))
    as (Hle & _).
  - apply reachable_step, reachable_mount.
  - exact Hle.
Defined.

(** ** Configuration changes *)

Section ConfigChange.
Context {I : Type} `{!Sdk.TwitchPlayerInstance I}.
Implicit Types st : State I.

Lemma clearHideTimeout_frame st :
  let st' := exec clearHideTimeout st in
  hooks st' = hooks st ∧ players (page st') = players (page st) ∧
  playerRef (refs st') = playerRef (refs st) ∧
  head (page st') = head (page st).
Proof. js. by destruct (hideControlsTimeoutRef (refs st)). Qed.

Lemma cleanup_spec i st :
  Inv st → playerRef (refs st) = Some i →
  let mid := exec cleanup st in
  (∃ o, players (page mid) !! i = Some o ∧ destroyed o = true) ∧
  live_players mid = [] ∧
  playerRef (refs mid) = None ∧
  isPlayerReady (hooks mid) = false ∧
  isLoading (hooks mid) = isLoading (hooks st) ∧
  isPaused (hooks mid) = isPaused (hooks st) ∧
  length (players (page mid)) = length (players (page st)).
Proof.
  intros HI Hi. cbn zeta. unfold exec, cleanup, bind.
  pose proof (Inv_clearHideTimeout st HI) as HI1.
  pose proof (clearHideTimeout_returns st) as Hr.
  destruct (clearHideTimeout_frame st) as (Hh & Hpl & Hpr & _).
  unfold exec in HI1, Hh, Hpl, Hpr.
  destruct (clearHideTimeout st) as [r st1]. cbn in Hr, Hh, Hpl, Hpr, HI1.
  subst r.
  destruct (destroy_current_player_spec st1 HI1)
    as (Hp & Hall & Hlen & _ & _ & Hl & Hpa & _ & _ & Hy & _).
  unfold exec in *. rewrite Hpr, Hi in Hy. rewrite <- Hh, <- Hpl.
  repeat split; try done.
  - destruct (inv_ref _ HI _ Hi) as (o & Ho & _).
    apply lookup_lt_Some in Ho. rewrite <- Hpl, <- Hlen in Ho.
    apply lookup_lt_is_Some_2 in Ho as [o' Ho'].
    exists o'. split; [done|]. by eapply Hall.
  - by apply live_players_nil.
Qed.

(** C4, as amended: a configuration change that arrives while a player
    exists runs the cleanup before the effect: the old player is destroyed,
    [playerRef] is cleared and the ready flag is set to false before
    construction is attempted.  The loading flag and the paused flag are
    not reset: the cleanup leaves both as they were. *)
Theorem config_change_destroys_first p i st :
  reachable st → mounted st = true → deps p ≠ deps (props st) →
  playerRef (refs st) = Some i →
  let mid := exec cleanup (with_props p st) in
  step (SetProps p) st = commit (exec (effect p) mid) ∧
  (∃ o, players (page mid) !! i = Some o ∧ destroyed o = true) ∧
  live_players mid = [] ∧
  playerRef (refs mid) = None ∧
  isPlayerReady (hooks mid) = false ∧
  isLoading (hooks mid) = isLoading (hooks st) ∧
  isPaused (hooks mid) = isPaused (hooks st) ∧
  length (players (page mid)) = length (players (page st)).
Proof.
  intros HI%reachable_Inv Hm Hd Hi. cbn zeta. split.
  - unfold step, set_props. rewrite Hm. by rewrite decide_False.
  - apply (cleanup_spec i (with_props p st)); [|done].
    by apply (Inv_frame st).
Qed.

(** *** Container ids *)

Lemma playerId_of_inj t1 t2 : playerId_of t1 = playerId_of t2 → t1 = t2.
Proof.
  unfold playerId_of. intros Heq.
  apply (inj (String.app _)) in Heq. by apply (inj pretty) in Heq.
Qed.

Lemma loadTwitchPlayer_page p st :
  let st' := exec (loadTwitchPlayer p) st in
  head (page st') = head (page st) ∧
  timeouts (page st') = timeouts (page st) ∧
  now (page st') = now (page st) ∧
  divIds (page st') =
    match containerRef (refs st) with
    | Some _ => (divIds (page st) ++ [playerId_of (now (page st))])%list
    | None => divIds (page st)
    end.
Proof.
  cbn zeta. rewrite loadTwitchPlayer_cases.
  destruct (containerRef (refs st)); [|done].
  assert (head (page (before_construct st)) = head (page st) ∧
          timeouts (page (before_construct st)) = timeouts (page st) ∧
          now (page (before_construct st)) = now (page st) ∧
          divIds (page (before_construct st)) =
            (divIds (page st) ++ [playerId_of (now (page st))])%list)
    as Hb.
  { unfold before_construct. js. by destruct (playerRef (refs st)). }
  destruct (Twitch (page st)); [|done].
  by destruct (Sdk.Player _ _).
Qed.

Lemma commit_frame st :
  hooks (commit st) = hooks st ∧ page (commit st) = page st ∧
  playerRef (refs (commit st)) = playerRef (refs st) ∧
  hideControlsTimeoutRef (refs (commit st)) =
    hideControlsTimeoutRef (refs st) ∧
  mounted (commit st) = mounted st ∧ props (commit st) = props st ∧
  render (commit st) = render st.
Proof.
  assert (∀ c, render (on_refs (refs_containerRef c) st) = render st)
    as Hr by done.
  unfold commit. destruct (mounted st) eqn:Hm; [|by repeat split].
  destruct (render st) eqn:Hv; [rewrite Hr; by repeat split|].
  destruct (containerRef (refs st)); [by repeat split|].
  rewrite Hr. by repeat split.
Qed.

(** C5, as amended: the id written for a new player div is
    [twitch-player-] followed by the clock reading in milliseconds; when
    the clock has advanced since the last event of the widget, that id
    differs from every id the widget has used before. *)
Theorem fresh_id_when_clock_advanced (d : N) p st :
  reachable st → (0 < d)%N →
  let st1 := step (Elapse d) st in
  containerRef (refs st1) ≠ None →
  divIds (page (exec (loadTwitchPlayer p) st1)) =
    (divIds (page st1) ++ [playerId_of (now (page st1))])%list ∧
  playerId_of (now (page st1)) ∉ divIds (page st1).
Proof.
  intros HI%reachable_Inv Hd. cbn zeta. intros Hc. split.
  - destruct (loadTwitchPlayer_page p (step (Elapse d) st))
      as (_ & _ & _ & ->).
    by destruct (containerRef (refs (step (Elapse d) st))).
  - unfold step.
    destruct (commit_frame (elapse d st)) as (_ & -> & _).
    destruct (elapse_spec d st HI) as (-> & _ & _ & _ & _ & _ & _ & -> & _).
    intros (t & Hle & Heq%playerId_of_inj)%(inv_ids _ HI). lia.
Qed.
End ConfigChange.

(** C4 fails as stated: a player has reported ready, so the loading flag and
    the paused flag are false; the configuration changes; when the
    replacement is constructed, and afterwards, both flags are still false:
    the widget is not back in Loading and [isPaused()] does not answer
    true. *)
Lemma config_change_keeps_loading_and_paused :
  let st := step (SdkEvent 0 "ready")
                 (Fake.mounted_at 1000 true (Fake.watch "abc")) in
  let p := Fake.watch "xyz" in
  let mid := exec cleanup (with_props p st) in
  let st' := step (SetProps p) st in
  playerRef (refs st) = Some 0%nat ∧ deps p ≠ deps (props st) ∧
  st' = commit (exec (effect p) mid) ∧
  ¬ (isLoading (hooks mid) = true ∧ isPaused (hooks mid) = true) ∧
  ¬ (isLoading (hooks st') = true ∧ isPaused (hooks st') = true) ∧
  (TwitchPlayerRef.isPaused st').1 = Normal false.
Proof.
  cbn zeta. split; [vm_compute; reflexivity|].
  split; [vm_compute; discriminate|].
  split; [vm_compute; reflexivity|].
  split; [vm_compute; by intros [[=] _]|].
  split; [vm_compute; by intros [[=] _]|].
  vm_compute; reflexivity.
Qed.

Lemma config_change_destroys_first_witness :
  let st := step (SdkEvent 0 "ready")
                 (Fake.mounted_at 1000 true (Fake.watch "abc")) in
  let mid := exec cleanup (with_props (Fake.watch "xyz") st) in
  mounted st = true ∧ deps (Fake.watch "xyz") ≠ deps (props st) ∧
  playerRef (refs st) = Some 0%nat ∧
  isPlayerReady (hooks st) = true ∧
  isPlayerReady (hooks mid) = false.
Proof.
  cbn zeta.
  assert (mounted (step (SdkEvent 0 "ready")
            (Fake.mounted_at 1000 true (Fake.watch "abc"))) = true)
    as Hm by (vm_compute; reflexivity).
  assert (deps (Fake.watch "xyz") ≠
          deps (props (step (SdkEvent 0 "ready")
            (Fake.mounted_at 1000 true (Fake.watch "abc")))))
    as Hd by (vm_compute; discriminate).
  assert (playerRef (refs (step (SdkEvent 0 "ready")
            (Fake.mounted_at 1000 true (Fake.watch "abc")))) = Some 0%nat)
    as Hp by (vm_compute; reflexivity).
  split; [exact Hm|]. split; [exact Hd|]. split; [exact Hp|].
  split; [vm_compute; reflexivity|].
  destruct (config_change_destroys_first (Fake.watch "xyz") 0
              (step (SdkEvent 0 "ready")
                    (Fake.mounted_at 1000 true (Fake.watch "abc")))
              (reachable_step _ _ (reachable_mount _ _ _)) Hm Hd Hp)
    as (_ & _ & _ & _ & Hr & _).
  exact Hr.
Defined.

(** C5 fails as stated: a configuration change in the millisecond of the
    mount writes the id of the first player div again. *)
Lemma same_id_within_one_millisecond :
  let st := Fake.mounted_at 1000 true (Fake.watch "abc") in
  let st' := step (SetProps (Fake.watch "xyz")) st in
  ∃ id, divIds (page st') = (divIds (page st) ++ [id])%list ∧
        id ∈ divIds (page st) ∧
        elementId <$> players (page st') = [id; id].
Proof.
  cbn zeta. exists "twitch-player-1000".
  split; [vm_compute; reflexivity|].
  split; [|vm_compute; reflexivity].
  replace (divIds (page (Fake.mounted_at 1000 true (Fake.watch "abc"))))
    with ["twitch-player-1000"] by (vm_compute; reflexivity).
  by left.
Qed.

Lemma fresh_id_when_clock_advanced_witness :
  let st := Fake.mounted_at 1000 true (Fake.watch "abc") in
  let st1 := step (Elapse 1) st in
  (0 < 1)%N ∧ containerRef (refs st1) ≠ None ∧
  divIds (page st1) = ["twitch-player-1000"] ∧
  playerId_of (now (page st1)) = "twitch-player-1001" ∧
  playerId_of (now (page st1)) ∉ divIds (page st1).
Proof.
  cbn zeta.
  assert (containerRef (refs (step (Elapse 1)
            (Fake.mounted_at 1000 true (Fake.watch "abc")))) ≠ None)
    as Hc by (vm_compute; discriminate).
  split; [reflexivity|]. split; [exact Hc|].
  split; [vm_compute; reflexivity|]. split; [vm_compute; reflexivity|].
  destruct (fresh_id_when_clock_advanced 1 (Fake.watch "xyz")
              (Fake.mounted_at 1000 true (Fake.watch "abc"))
              (reachable_mount _ _ _) eq_refl Hc)
    as (_ & Hfresh).
  exact Hfresh.
Defined.

(** ** The event bridge *)

Section Bridge.
Context {I : Type} `{!Sdk.TwitchPlayerInstance I}.
Implicit Types st : State I.

Lemma call_spec cb args st :
  let st' := exec (call cb args) st in
  hooks st' = hooks st ∧ refs st' = refs st ∧
  players (page st') = players (page st) ∧
  hostCalls (page st') = (hostCalls (page st) ++ calls_of cb args)%list.
Proof. destruct cb; cbn; [done|]. by rewrite app_nil_r. Qed.

(** The listeners of a player made by [loadTwitchPlayer p], run for one
    event name. *)
Lemma emit_bridge i o p name st :
  players (page st) !! i = Some o → listeners o = bridge p →
  emit i name st =
  if decide (name = "ready") then exec (run_listener i (ReadyListener (onReady p))) st
  else if decide (name = "play") then exec (run_listener i (PlayListener (onPlay p))) st
  else if decide (name = "pause") then exec (run_listener i (PauseListener (onPause p))) st
  else if decide (name = "ended") then exec (run_listener i (EndedListener (onEnded p))) st
  else if decide (name = "seek") then exec (run_listener i (SeekListener (onSeek p))) st
  else st.
Proof.
  intros Ho Hl. unfold emit. rewrite Ho, Hl. unfold bridge. cbn [foldl fst snd].
  repeat case_decide; subst; try done.
Qed.

(** C6: on a player created by [loadTwitchPlayer], whose listeners close
    over the callbacks of props [p]: a ready event clears the loading flag
    and the error, sets the ready flag, sets paused to false and calls
    [onReady]; a play event sets paused to false and calls [onPlay]; a
    pause event sets paused to true and calls [onPause]; an ended event
    sets paused to true and calls [onEnded].  Exactly that callback is
    called, once and without arguments, when the prop is present, and no
    callback is called when it is absent; play, pause and ended leave the
    other hooks as they were. *)
Theorem event_bridge i o st :
  reachable st → players (page st) !! i = Some o →
  ∃ p, options o = options_of p ∧ listeners o = bridge p ∧
    (let st' := step (SdkEvent i "ready") st in
     isLoading (hooks st') = false ∧ error (hooks st') = None ∧
     isPlayerReady (hooks st') = true ∧ isPaused (hooks st') = false ∧
     hostCalls (page st') = (hostCalls (page st) ++ calls_of (onReady p) [])%list) ∧
    (let st' := step (SdkEvent i "play") st in
     hooks st' = hooks_isPaused false (hooks st) ∧
     hostCalls (page st') = (hostCalls (page st) ++ calls_of (onPlay p) [])%list) ∧
    (let st' := step (SdkEvent i "pause") st in
     hooks st' = hooks_isPaused true (hooks st) ∧
     hostCalls (page st') = (hostCalls (page st) ++ calls_of (onPause p) [])%list) ∧
    (let st' := step (SdkEvent i "ended") st in
     hooks st' = hooks_isPaused true (hooks st) ∧
     hostCalls (page st') = (hostCalls (page st) ++ calls_of (onEnded p) [])%list).
Proof.
  intros HI%reachable_Inv Ho.
  destruct (inv_bridge _ HI _ _ Ho) as (p & Hop & Hl).
  exists p. split; [done|]. split; [done|]. cbn zeta. unfold step.
  destruct (commit_frame (emit i "ready" st)) as (-> & -> & _).
  destruct (commit_frame (emit i "play" st)) as (-> & -> & _).
  destruct (commit_frame (emit i "pause" st)) as (-> & -> & _).
  destruct (commit_frame (emit i "ended" st)) as (-> & -> & _).
  rewrite !(emit_bridge i o p _ st Ho Hl). cbn.
  unfold exec, bind. cbn.
  destruct (onReady p), (onPlay p), (onPause p), (onEnded p); cbn;
    rewrite ?app_nil_r; by repeat split.
Qed.

(** C7: a seek event on a player created by [loadTwitchPlayer] reads the
    current time from that player and calls [onSeek] with it (no call when
    the prop is absent); the hooks, the paused flag among them, the refs
    and the players are left as they were. *)
Theorem seek_bridge i o t st :
  reachable st → players (page st) !! i = Some o →
  Sdk.getCurrentTime (impl o) = Normal t →
  ∃ p, options o = options_of p ∧ listeners o = bridge p ∧
    let st' := step (SdkEvent i "seek") st in
    hostCalls (page st') = (hostCalls (page st) ++ calls_of (onSeek p) [t])%list ∧
    isPaused (hooks st') = isPaused (hooks st) ∧
    hooks st' = hooks st ∧
    playerRef (refs st') = playerRef (refs st) ∧
    players (page st') = players (page st).
Proof.
  intros HI%reachable_Inv Ho Ht.
  destruct (inv_bridge _ HI _ _ Ho) as (p & Hop & Hl).
  exists p. split; [done|]. split; [done|]. cbn zeta. unfold step.
  destruct (commit_frame (emit i "seek" st)) as (-> & -> & -> & _).
  rewrite (emit_bridge i o p _ st Ho Hl). cbn.
  unfold exec, bind, query. rewrite Ho, Ht.
  destruct (onSeek p); cbn; rewrite ?app_nil_r; by repeat split.
Qed.
End Bridge.

(** The scenario of the specification: ready, then pause. *)
Lemma event_bridge_witness :
  let st := Fake.mounted_at 1000 true (Fake.watch "abc") in
  is_Some (players (page st) !! 0%nat) ∧
  hostCalls (page (step (SdkEvent 0 "pause") (step (SdkEvent 0 "ready") st)))
    = [Called 1%nat []; Called 3%nat []] ∧
  isPlayerReady (hooks (step (SdkEvent 0 "ready") st)) = true ∧
  isPaused (hooks (step (SdkEvent 0 "ready") st)) = false.
Proof.
  cbn zeta.
  destruct (players (page (Fake.mounted_at 1000 true (Fake.watch "abc")))
              !! 0%nat) as [o|] eqn:Ho;
    [|vm_compute in Ho; discriminate].
  split; [by exists o|]. split; [vm_compute; reflexivity|].
  destruct (event_bridge 0 o (Fake.mounted_at 1000 true (Fake.watch "abc"))
              (reachable_mount _ _ _) Ho)
    as (p & _ & _ & (_ & _ & Hr & Hp & _) & _).
  split; [exact Hr|exact Hp].
Defined.

(** A seek to second 42, then the SDK's seek event. *)
Lemma seek_bridge_witness :
  let st := step (Call (CallSeek 42%Q))
              (step (SdkEvent 0 "ready")
                 (Fake.mounted_at 1000 true (Fake.watch "abc"))) in
  (∃ o, players (page st) !! 0%nat = Some o ∧
        Sdk.getCurrentTime (impl o) = Normal 42%Q) ∧
  hostCalls (page (step (SdkEvent 0 "seek") st))
    = [Called 1%nat []; Called 5%nat [42%Q]] ∧
  isPaused (hooks (step (SdkEvent 0 "seek") st)) = isPaused (hooks st).
Proof.
  cbn zeta.
  destruct (players (page (step (Call (CallSeek 42%Q))
              (step (SdkEvent 0 "ready")
                 (Fake.mounted_at 1000 true (Fake.watch "abc")))))
              !! 0%nat) as [o|] eqn:Ho;
    [|vm_compute in Ho; discriminate].
  assert (Sdk.getCurrentTime (impl o) = Normal 42%Q) as Ht.
  { vm_compute in Ho. injection Ho as <-. vm_compute. reflexivity. }
  split; [by exists o|]. split; [vm_compute; reflexivity|].
  destruct (seek_bridge 0 o 42%Q _
              (reachable_step _ _ (reachable_step _ _ (reachable_mount _ _ _)))
              Ho Ht)
    as (p & _ & _ & _ & Hp & _).
  exact Hp.
Defined.

(** ** The script loader *)

Section Loader.
Context {I : Type} `{!Sdk.TwitchPlayerInstance I}.
Implicit Types st : State I.

Lemma script_load_settled k s st :
  head (page st) !! k = Some s → status s ≠ Pending →
  script_load k st = st ∧ script_error k st = st.
Proof.
  intros Hk Hs. unfold script_load, script_error. rewrite Hk.
  by destruct (status s).
Qed.

(** C8, as amended: with the SDK global present the effect calls
    [loadTwitchPlayer] at once and appends no script.  With the global
    absent every run of the effect (mount or configuration change) appends
    one more script element with the SDK's URL, whether or not an earlier
    one is still loading, and does nothing else.  A pending script settles
    once: its load runs [loadTwitchPlayer] with the props of its effect
    run, its failure runs the error handler, and a settled script runs
    neither again. *)
Theorem script_loader p st :
  (Twitch (page st) = true →
     effect p st = loadTwitchPlayer p st ∧
     head (page (exec (effect p) st)) = head (page st)) ∧
  (Twitch (page st) = false →
     exec (effect p) st =
     on_page (λ g, page_head
                     (head g ++
                      [{| src := "https://embed.twitch.tv/embed/v1.js";
                          script_env := p; status := Pending |}]) g) st) ∧
  (∀ k s, head (page st) !! k = Some s → status s = Pending →
     (let st' := script_load k st in
      st' = exec (loadTwitchPlayer (script_env s))
              (on_page (λ g, page_Twitch true
                               (page_head (<[k := script_status Loaded s]>
                                             (head g)) g)) st) ∧
      status <$> head (page st') !! k = Some Loaded ∧
      script_load k st' = st' ∧ script_error k st' = st') ∧
     (let st' := script_error k st in
      st' = exec script_onerror
              (on_page (λ g, page_head (<[k := script_status Failed s]>
                                          (head g)) g) st) ∧
      status <$> head (page st') !! k = Some Failed ∧
      script_load k st' = st' ∧ script_error k st' = st')).
Proof.
  split; [|split].
  - intros Ht. split.
    + unfold effect, bind, gets. by rewrite Ht.
    + unfold exec, effect, bind, gets. rewrite Ht. cbn.
      apply (loadTwitchPlayer_page p st).
  - intros Ht. unfold exec, effect, bind, gets. by rewrite Ht.
  - intros k s Hk Hs. pose proof (lookup_lt_Some _ _ _ Hk) as Hlt.
    cbn zeta. split.
    + assert (script_load k st =
              exec (loadTwitchPlayer (script_env s))
                (on_page (λ g, page_Twitch true
                   (page_head (<[k := script_status Loaded s]> (head g)) g))
                   st)) as Heq.
      { unfold script_load. by rewrite Hk, Hs. }
      split; [done|].
      assert (head (page (script_load k st)) !! k =
              Some (script_status Loaded s)) as Hk'.
      { rewrite Heq.
        destruct (loadTwitchPlayer_page (script_env s)
          (on_page (λ g, page_Twitch true
             (page_head (<[k := script_status Loaded s]> (head g)) g)) st))
          as (-> & _).
        cbn. by apply list_lookup_insert_eq. }
      split; [by rewrite Hk'|].
      by apply (script_load_settled k (script_status Loaded s)).
    + assert (script_error k st =
              exec script_onerror
                (on_page (λ g, page_head
                   (<[k := script_status Failed s]> (head g)) g) st)) as Heq.
      { unfold script_error. by rewrite Hk, Hs. }
      split; [done|].
      assert (head (page (script_error k st)) !! k =
              Some (script_status Failed s)) as Hk'.
      { rewrite Heq. cbn. by apply list_lookup_insert_eq. }
      split; [by rewrite Hk'|].
      by apply (script_load_settled k (script_status Failed s)).
Qed.
End Loader.

(** C8 fails as stated: a configuration change that arrives while the first
    script is still loading injects the SDK script a second time. *)
Lemma script_injected_twice :
  let st := step (SetProps (Fake.watch "xyz"))
                 (Fake.mounted_at 1000 false (Fake.watch "abc")) in
  src <$> head (page st) = ["https://embed.twitch.tv/embed/v1.js";
                            "https://embed.twitch.tv/embed/v1.js"] ∧
  status <$> head (page st) = [Pending; Pending] ∧
  ¬ (length (head (page st)) ≤ 1)%nat.
Proof.
  cbn zeta. split; [vm_compute; reflexivity|].
  split; [vm_compute; reflexivity|].
  replace (length (head (page (step (SetProps (Fake.watch "xyz"))
             (Fake.mounted_at 1000 false (Fake.watch "abc"))))))
    with 2%nat by (vm_compute; reflexivity).
  lia.
Qed.

Lemma script_loader_witness :
  let st := Fake.mounted_at 1000 false (Fake.watch "abc") in
  Twitch (page st) = false ∧
  (∃ s, head (page st) !! 0%nat = Some s ∧ status s = Pending) ∧
  playerRef (refs (script_load 0 st)) = Some 0%nat ∧
  status <$> head (page (script_load 0 st)) !! 0%nat = Some Loaded ∧
  script_load 0 (script_load 0 st) = script_load 0 st.
Proof.
  cbn zeta.
  destruct (head (page (Fake.mounted_at 1000 false (Fake.watch "abc")))
              !! 0%nat) as [s|] eqn:Hs;
    [|vm_compute in Hs; discriminate].
  assert (status s = Pending) as Hp.
  { vm_compute in Hs. by injection Hs as <-. }
  split; [vm_compute; reflexivity|]. split; [by exists s|].
  split; [vm_compute; reflexivity|].
  destruct (script_loader (Fake.watch "abc")
              (Fake.mounted_at 1000 false (Fake.watch "abc")))
    as (_ & _ & Hsettle).
  destruct (Hsettle 0%nat s Hs Hp) as ((_ & Hl & Hagain & _) & _).
  split; [exact Hl|exact Hagain].
Defined.
(** ** The overlay *)

Section OverlayTimer.
Context {I : Type} `{!Sdk.TwitchPlayerInstance I}.
Implicit Types st : State I.

Lemma timeouts_at_most_one st :
  Inv st → (length (timeouts (page st)) ≤ 1)%nat.
Proof.
  intros HI. pose proof (inv_timer _ HI) as Htm.
  destruct (hideControlsTimeoutRef (refs st)).
  - destruct Htm as [t ->]. done.
  - rewrite Htm. cbn. lia.
Qed.

(** Arming at clock reading [now]: visible until [now + 3000], hidden from
    then on. *)
Lemma armed_then_idle st :
  Inv st →
  let st' := commit (exec handleMouseActivity st) in
  showControls (hooks st') = true ∧
  timeouts (page st') =
    [(S (timeoutSeq (page st)), now (page st) + 3000)] ∧
  hideControlsTimeoutRef (refs st') = Some (S (timeoutSeq (page st))) ∧
  ∀ d : N, showControls (hooks (step (Elapse d) st')) =
           bool_decide (d < 3000)%N.
Proof.
  intros HI. cbn zeta.
  pose proof (Inv_commit _ (Inv_handleMouseActivity st HI)) as HI'.
  destruct (commit_frame (exec handleMouseActivity st))
    as (Hh & Hp & _ & Hr & _).
  destruct (handleMouseActivity_spec st HI) as (Hs & Ht & Hi & Hn & _).
  rewrite Hh, Hp, Hr. repeat split; try done.
  intros d. unfold step.
  destruct (commit_frame (elapse d (commit (exec handleMouseActivity st))))
    as (-> & _).
  pose proof (elapse_spec d _ HI') as HE. cbn zeta in HE.
  destruct HE as (_ & _ & _ & _ & _ & _ & _ & _ & _ & HE).
  rewrite Hp, Ht, Hn, Hh in HE.
  case_decide as Hdue.
  - destruct HE as (_ & _ & ->).
    rewrite bool_decide_eq_false_2; [done|lia].
  - destruct HE as (_ & _ & ->).
    rewrite Hs, bool_decide_eq_true_2; [done|lia].
Qed.

Lemma left_then_idle st :
  Inv st →
  let st' := commit (exec handleMouseLeave st) in
  showControls (hooks st') = false ∧
  timeouts (page st') = [] ∧
  hideControlsTimeoutRef (refs st') = None ∧
  ∀ d : N, showControls (hooks (step (Elapse d) st')) = false.
Proof.
  intros HI. cbn zeta.
  pose proof (Inv_commit _ (Inv_handleMouseLeave st HI)) as HI'.
  destruct (commit_frame (exec handleMouseLeave st))
    as (Hh & Hp & _ & Hr & _).
  destruct (handleMouseLeave_spec st HI) as (Hs & Ht & Hi & Hn & _).
  rewrite Hh, Hp, Hr. repeat split; try done.
  intros d. unfold step.
  destruct (commit_frame (elapse d (commit (exec handleMouseLeave st))))
    as (-> & _).
  pose proof (elapse_spec d _ HI') as HE. cbn zeta in HE.
  destruct HE as (_ & _ & _ & _ & _ & _ & _ & _ & _ & HE).
  rewrite Hp, Ht, Hh in HE. by destruct HE as (_ & _ & ->).
Qed.

Lemma handlePlayPause_page st :
  Inv st →
  now (page (exec handlePlayPause st)) = now (page st).
Proof.
  intros HI. unfold exec, handlePlayPause. unfold bind at 1 2 3, gets.
  assert (∀ i m, now (page ((invoke i m ;; handleMouseActivity) st).2)
                 = now (page st)) as Hm.
  { intros i m. pose proof (Inv_invoke i m st HI) as HI1.
    assert (now (page (exec (invoke i m) st)) = now (page st)) as Hn.
    { unfold exec, invoke. destruct (players (page st) !! i); [|done].
      by destruct (m _). }
    unfold exec in HI1, Hn. unfold bind.
    destruct (invoke i m st) as [[[]|e] st1]; cbn [fst snd] in *; [|done].
    destruct (handleMouseActivity_spec st1 HI1) as (_ & _ & _ & Hn' & _).
    unfold exec in Hn'. by rewrite Hn'. }
  destruct (playerRef_and_isPlayerReady st) as [i|].
  - destruct (isPaused (hooks st)); apply Hm.
  - destruct (handleMouseActivity_spec st HI) as (_ & _ & _ & Hn' & _).
    exact Hn'.
Qed.

(** C9: at every moment at most one timeout is pending.  While the player
    container is rendered, pointer activity at clock reading [t] shows the
    controls and leaves exactly one pending timeout, due at [t + 3000];
    with nothing but time passing the controls are shown at every delay
    below 3000 ms and hidden at every delay from 3000 ms on.  A pointer
    leave hides the controls at once and leaves no pending timeout, so
    they stay hidden however much time passes. *)
Theorem overlay_idle_timer st :
  reachable st →
  (length (timeouts (page st)) ≤ 1)%nat ∧
  (mounted st = true → error_shown st = None →
   (∀ e, activity e st →
      let st' := step (Pointer e) st in
      showControls (hooks st') = true ∧
      (∃ id, timeouts (page st') = [(id, now (page st) + 3000)] ∧
             hideControlsTimeoutRef (refs st') = Some id) ∧
      ∀ d : N, showControls (hooks (step (Elapse d) st')) =
               bool_decide (d < 3000)%N) ∧
   (let st' := step (Pointer MouseLeave) st in
    showControls (hooks st') = false ∧
    timeouts (page st') = [] ∧
    hideControlsTimeoutRef (refs st') = None ∧
    ∀ d : N, showControls (hooks (step (Elapse d) st')) = false)).
Proof.
  intros HI%reachable_Inv. split; [by apply timeouts_at_most_one|].
  intros Hm He. split.
  - intros e Ha. cbn zeta. unfold step, pointer, render.
    rewrite Hm, He.
    destruct Ha as [-> | [-> | [-> Hr]]].
    + destruct (armed_then_idle st HI) as (? & ? & ? & ?). eauto 10.
    + destruct (armed_then_idle st HI) as (? & ? & ? & ?). eauto 10.
    + rewrite Hr.
      destruct (armed_then_idle _ (Inv_handlePlayPause st HI))
        as (? & Ht & ? & ?).
      rewrite handlePlayPause_page in Ht by done. eauto 10.
  - cbn zeta. unfold step, pointer, render. rewrite Hm, He.
    apply (left_then_idle st HI).
Qed.
End OverlayTimer.

(** A move over a ready player at clock reading 1000. *)
Lemma overlay_idle_timer_witness :
  let st := step (SdkEvent 0 "ready")
                 (Fake.mounted_at 1000 true (Fake.watch "abc")) in
  let st' := step (Pointer MouseMove) st in
  mounted st = true ∧ error_shown st = None ∧ activity MouseMove st ∧
  timeouts (page st') = [(1%nat, 4000)] ∧
  showControls (hooks (step (Elapse 2999) st')) = true ∧
  showControls (hooks (step (Elapse 3000) st')) = false ∧
  ∀ d : N, showControls (hooks (step (Elapse d) st')) =
           bool_decide (d < 3000)%N.
Proof.
  cbn zeta.
  assert (mounted (step (SdkEvent 0 "ready")
            (Fake.mounted_at 1000 true (Fake.watch "abc"))) = true)
    as Hm by (vm_compute; reflexivity).
  assert (error_shown (step (SdkEvent 0 "ready")
            (Fake.mounted_at 1000 true (Fake.watch "abc"))) = None)
    as He by (vm_compute; reflexivity).
  assert (activity MouseMove (step (SdkEvent 0 "ready")
            (Fake.mounted_at 1000 true (Fake.watch "abc"))))
    as Ha by (by left).
  split; [exact Hm|]. split; [exact He|]. split; [exact Ha|].
  split; [vm_compute; reflexivity|].
  split; [vm_compute; reflexivity|].
  split; [vm_compute; reflexivity|].
  destruct (overlay_idle_timer
              (step (SdkEvent 0 "ready")
                    (Fake.mounted_at 1000 true (Fake.watch "abc")))
              (reachable_step _ _ (reachable_mount _ _ _)))
    as (_ & Hov).
  destruct (Hov Hm He) as (Hact & _).
  destruct (Hact MouseMove Ha) as (_ & _ & Hidle).
  exact Hidle.
Defined.

(** ** Failures *)

Section Failures.
Context {I : Type} `{!Sdk.TwitchPlayerInstance I}.
Implicit Types st : State I.

Lemma errored_with_commit msg st :
  errored_with msg st → errored_with msg (commit st).
Proof.
  unfold errored_with.
  destruct (commit_frame st) as (-> & _ & _ & _ & _ & -> & ->). done.
Qed.

Lemma cleanup_frame st :
  Inv st →
  let mid := exec cleanup st in
  containerRef (refs mid) = containerRef (refs st) ∧
  Twitch (page mid) = Twitch (page st) ∧
  now (page mid) = now (page st) ∧
  head (page mid) = head (page st) ∧
  length (players (page mid)) = length (players (page st)) ∧
  props mid = props st.
Proof.
  intros HI. cbn zeta. unfold exec, cleanup, bind.
  pose proof (Inv_clearHideTimeout st HI) as HI1.
  pose proof (clearHideTimeout_returns st) as Hr.
  assert (containerRef (refs (exec clearHideTimeout st)) =
            containerRef (refs st) ∧
          Twitch (page (exec clearHideTimeout st)) = Twitch (page st) ∧
          now (page (exec clearHideTimeout st)) = now (page st) ∧
          head (page (exec clearHideTimeout st)) = head (page st) ∧
          players (page (exec clearHideTimeout st)) = players (page st) ∧
          props (exec clearHideTimeout st) = props st)
    as (Hc & Ht & Hn & Hh & Hp & Hpr).
  { js. by destruct (hideControlsTimeoutRef (refs st)). }
  unfold exec in HI1, Hc, Ht, Hn, Hh, Hp, Hpr.
  destruct (clearHideTimeout st) as [r st1].
  cbn [fst snd] in Hr, HI1, Hc, Ht, Hn, Hh, Hp, Hpr. subst r.
  destruct (destroy_current_player_spec st1 HI1)
    as (_ & _ & Hlen & Hc' & _ & _ & _ & _ & _ & _ & _ & Hpr' & Hn' & Ht'
        & Hh' & _).
  unfold exec in Hlen, Hc', Hpr', Hn', Ht', Hh'.
  rewrite Hlen, Hc', Hpr', Hn', Ht', Hh', Hp. done.
Qed.

(** The constructor throws: what [loadTwitchPlayer] and the commit of the
    render leave. *)
Lemma loadTwitchPlayer_throws p e st :
  Inv st → containerRef (refs st) ≠ None → Twitch (page st) = true →
  Sdk.Player (playerId_of (now (page st))) (options_of p) = Throw e →
  instantiation_failed st (commit (exec (loadTwitchPlayer p) st)).
Proof.
  intros HI Hc Ht He. rewrite loadTwitchPlayer_cases.
  destruct (containerRef (refs st)) as [c|] eqn:Hc'; [|done].
  rewrite Ht, He.
  assert (Inv (before_construct st)) as HB
    by (apply Inv_before_construct; [congruence|done]).
  pose proof (Inv_commit _ (Inv_failed e _ HB)) as HI'.
  destruct (destroy_current_player_spec st HI)
    as (Hp & _ & Hlen & _ & _ & _ & _ & _ & _ & _ & _ & _ & _ & _ & Hh & _).
  assert (playerRef (refs (commit (failed e (before_construct st)))) = None)
    as Hp'.
  { by destruct (commit_frame (failed e (before_construct st)))
      as (_ & _ & -> & _). }
  unfold instantiation_failed.
  split; [by apply errored_with_commit|].
  split; [done|].
  split; [by apply live_players_unowned|].
  destruct (commit_frame (failed e (before_construct st))) as (_ & -> & _).
  split; [exact Hlen|]. split; [cbn; by rewrite Hh|].
  intros m. apply mutator_not_delegating. by left.
Qed.

(** C10: a script that fails to load, and a constructor that throws (at
    the mount, at a configuration change, at the load of the script), leave
    the error set and the ready flag false, and the render is the error
    container with the message.  The failure step constructs no player and
    injects no script, and time passing alone never does either: there is
    no retry.  The error surface and the ready flag exclude each other in
    every state.  When the constructor throws, [playerRef] is left null, no
    player object is added, no player is live, and every mutator of the
    handle returns without effect. *)
Theorem failures_are_terminal st :
  reachable st →
  (∀ k s, head (page st) !! k = Some s → status s = Pending →
     let st' := step (ScriptError k) st in
     errored_with "Failed to load Twitch embed script" st' ∧
     length (players (page st')) = length (players (page st)) ∧
     length (head (page st')) = length (head (page st)) ∧
     ∀ c, mutator c st' = (Normal tt, st')) ∧
  (∀ p e, mounted st = true → deps p ≠ deps (props st) →
     containerRef (refs st) ≠ None → Twitch (page st) = true →
     Sdk.Player (playerId_of (now (page st))) (options_of p) = Throw e →
     instantiation_failed st (step (SetProps p) st)) ∧
  (∀ k s e, head (page st) !! k = Some s → status s = Pending →
     containerRef (refs st) ≠ None →
     Sdk.Player (playerId_of (now (page st))) (options_of (script_env s))
       = Throw e →
     instantiation_failed st (step (ScriptLoad k) st)) ∧
  (∀ p t e, Sdk.Player (playerId_of t) (options_of p) = Throw e →
     let st' := mount p (initial_page t true) in
     errored_with "Failed to initialize Twitch player" st' ∧
     playerRef (refs st') = None ∧ players (page st') = [] ∧
     head (page st') = [] ∧
     ∀ c, mutator c st' = (Normal tt, st')) ∧
  (∀ d, let st' := step (Elapse d) st in
     length (players (page st')) = length (players (page st)) ∧
     head (page st') = head (page st)) ∧
  ¬ (error_shown st ≠ None ∧ isPlayerReady (hooks st) = true).
Proof.
  intros HI%reachable_Inv. repeat apply conj.
  - intros k s Hk Hs. cbn zeta. unfold step, script_error.
    rewrite Hk, Hs.
    split; [by apply errored_with_commit|].
    match goal with
    | |- context [commit ?s] =>
        destruct (commit_frame s) as (Hh & -> & _)
    end.
    split; [done|]. split; [cbn; by rewrite length_insert|].
    intros c. apply mutator_not_delegating. right. by rewrite Hh.
  - intros p e Hm Hd Hc Ht He. unfold step, set_props.
    rewrite Hm, decide_False by done.
    assert (Inv (with_props p st)) as HIp by by apply (Inv_frame st).
    pose proof (Inv_cleanup _ HIp) as HIc.
    destruct (cleanup_frame _ HIp) as (Hc' & Ht' & Hn' & Hh' & Hl' & _).
    cbn in Hc', Ht', Hn', Hh', Hl'.
    assert (exec (effect p) (exec cleanup (with_props p st)) =
            exec (loadTwitchPlayer p) (exec cleanup (with_props p st)))
      as ->.
    { unfold exec at 1, effect, bind, gets. by rewrite Ht', Ht. }
    destruct (loadTwitchPlayer_throws p e (exec cleanup (with_props p st)))
      as (H1 & H2 & H3 & H4 & H5 & H6); try done.
    + by rewrite Hc'.
    + by rewrite Ht'.
    + by rewrite Hn'.
    + unfold instantiation_failed. rewrite H4, H5, Hl', Hh'. done.
  - intros k s e Hk Hs Hc He. unfold step, script_load. rewrite Hk, Hs.
    match goal with
    | |- context [exec (loadTwitchPlayer ?q) ?s0] =>
        destruct (loadTwitchPlayer_throws q e s0)
          as (H1 & H2 & H3 & H4 & H5 & H6); try done
    end.
    + by apply (Inv_frame st).
    + unfold instantiation_failed. rewrite H4, H5. cbn.
      by rewrite length_insert.
  - intros p t e He. cbn zeta. unfold mount.
    match goal with
    | |- context [exec (effect p) ?s0] =>
        assert (exec (effect p) s0 = exec (loadTwitchPlayer p) s0) as ->
          by done;
        destruct (loadTwitchPlayer_throws p e s0)
          as (H1 & H2 & H3 & H4 & H5 & H6); try done
    end.
    + constructor; cbn; try done. intros id Hid.
      by apply elem_of_nil in Hid.
    + cbn in H4, H5.
      split; [done|]. split; [done|].
      split; [by apply nil_length_inv|].
      split; [by apply nil_length_inv|]. done.
  - intros d. cbn zeta. unfold step.
    destruct (commit_frame (elapse d st)) as (_ & -> & _).
    destruct (elapse_spec d st HI)
      as (_ & -> & _ & _ & _ & _ & _ & _ & -> & _).
    done.
  - intros [Hes Hr]. unfold error_shown in Hes.
    destruct (error (hooks st)) as [e|] eqn:He; [|done].
    destruct (inv_error _ HI e He) as [_ Hf]. congruence.
Qed.
End Failures.

(** A configuration change to props that select no content: the test
    double's constructor throws. *)
Lemma failures_are_terminal_witness :
  let st := Fake.mounted_at 1000 true (Fake.watch "abc") in
  mounted st = true ∧ deps Fake.nothing ≠ deps (props st) ∧
  containerRef (refs st) ≠ None ∧ Twitch (page st) = true ∧
  Sdk.Player (playerId_of (now (page st))) (options_of Fake.nothing)
    = Throw "no content" ∧
  destroyed <$> players (page (step (SetProps Fake.nothing) st)) = [true] ∧
  instantiation_failed st (step (SetProps Fake.nothing) st).
Proof.
  cbn zeta.
  assert (mounted (Fake.mounted_at 1000 true (Fake.watch "abc")) = true)
    as Hm by (vm_compute; reflexivity).
  assert (deps Fake.nothing ≠
          deps (props (Fake.mounted_at 1000 true (Fake.watch "abc"))))
    as Hd by (vm_compute; discriminate).
  assert (containerRef (refs (Fake.mounted_at 1000 true (Fake.watch "abc")))
          ≠ None) as Hc by (vm_compute; discriminate).
  assert (Twitch (page (Fake.mounted_at 1000 true (Fake.watch "abc"))) = true)
    as Ht by (vm_compute; reflexivity).
  assert (Sdk.Player
            (playerId_of
               (now (page (Fake.mounted_at 1000 true (Fake.watch "abc")))))
            (options_of Fake.nothing) = Throw "no content")
    as He by (vm_compute; reflexivity).
  split; [exact Hm|]. split; [exact Hd|]. split; [exact Hc|].
  split; [exact Ht|]. split; [exact He|].
  split; [vm_compute; reflexivity|].
  destruct (failures_are_terminal
              (Fake.mounted_at 1000 true (Fake.watch "abc"))
              (reachable_mount _ _ _))
    as (_ & Hset & _).
  exact (Hset Fake.nothing "no content" Hm Hd Hc Ht He).
Defined.

(** * Further properties of the component *)

(** ** What each piece of code leaves alone *)

Section Frames.
Context {I : Type} `{!Sdk.TwitchPlayerInstance I}.
Implicit Types st : State I.

Lemma same_outside_refl st : same_outside_hooks_and_calls st st.
Proof. by repeat split. Qed.

Lemma same_outside_trans st1 st2 st3 :
  same_outside_hooks_and_calls st1 st2 →
  same_outside_hooks_and_calls st2 st3 →
  same_outside_hooks_and_calls st1 st3.
Proof.
  unfold same_outside_hooks_and_calls.
  intros (-> & -> & -> & -> & -> & -> & -> & -> & -> & -> & ->). done.
Qed.

Lemma run_listener_frame i l st :
  same_outside_hooks_and_calls (exec (run_listener i l) st) st.
Proof.
  destruct l; unfold exec, run_listener, bind; cbn;
    try (destruct cb; by repeat split).
  unfold query. destruct (players (page st) !! i) as [o|];
    [|by repeat split].
  destruct (Sdk.getCurrentTime (impl o)); [|by repeat split].
  destruct cb; by repeat split.
Qed.

Lemma emit_frame i name st :
  same_outside_hooks_and_calls (emit i name st) st.
Proof.
  unfold emit. destruct (players (page st) !! i) as [o|];
    [|apply same_outside_refl].
  generalize (listeners o). intros ls.
  assert (∀ s, same_outside_hooks_and_calls s st →
               same_outside_hooks_and_calls
                 (foldl (λ s nl, if decide (nl.1 = name)
                                 then exec (run_listener i nl.2) s else s)
                        s ls) st) as Hgen.
  { induction ls as [|[n l] ls IH]; intros s Hs; [done|].
    cbn. apply IH. case_decide; [|done].
    eapply same_outside_trans; [apply run_listener_frame|done]. }
  apply Hgen, same_outside_refl.
Qed.

(** The timeout callbacks touch [showControls] and the timeout ref only. *)
Lemma hideControls_runs (l : list (nat * Z)) st :
  let st' := foldl (λ s _, exec hideControls s) st l in
  page st' = page st ∧ props st' = props st ∧ mounted st' = mounted st ∧
  playerRef (refs st') = playerRef (refs st) ∧
  containerRef (refs st') = containerRef (refs st) ∧
  isLoading (hooks st') = isLoading (hooks st) ∧
  error (hooks st') = error (hooks st) ∧
  isPlayerReady (hooks st') = isPlayerReady (hooks st) ∧
  isPaused (hooks st') = isPaused (hooks st).
Proof.
  cbn zeta. revert st. induction l as [|x l IH]; intros st; [done|].
  cbn [foldl]. destruct (IH (exec hideControls st))
    as (-> & -> & -> & -> & -> & -> & -> & -> & ->).
  done.
Qed.

Lemma invoke_frame i m st :
  let r := invoke i m st in
  hooks r.2 = hooks st ∧ refs r.2 = refs st ∧ props r.2 = props st ∧
  mounted r.2 = mounted st ∧ hostCalls (page r.2) = hostCalls (page st) ∧
  timeouts (page r.2) = timeouts (page st) ∧
  head (page r.2) = head (page st) ∧
  length (players (page r.2)) = length (players (page st)) ∧
  (∀ e, r.1 = Throw e → r.2 = st).
Proof.
  cbn zeta. unfold invoke.
  destruct (players (page st) !! i) as [o|]; [|by repeat split].
  destruct (m (impl o)); cbn; [|by repeat split].
  repeat split; try done. by rewrite length_insert.
Qed.
End Frames.

(** ** Teardown *)

Section Teardown.
Context {I : Type} `{!Sdk.TwitchPlayerInstance I}.
Implicit Types st : State I.

(** The cleanup of the effect: the overlay side and the log. *)
Lemma cleanup_overlay st :
  Inv st →
  let mid := exec cleanup st in
  timeouts (page mid) = [] ∧
  hideControlsTimeoutRef (refs mid) = None ∧
  showControls (hooks mid) = showControls (hooks st) ∧
  error (hooks mid) = error (hooks st) ∧
  hostCalls (page mid) = hostCalls (page st) ∧
  mounted mid = mounted st ∧
  (playerRef (refs st) = None → players (page mid) = players (page st)).
Proof.
  intros HI. pose proof (inv_timer _ HI) as Htm. js.
  destruct (hideControlsTimeoutRef (refs st)) as [id|] eqn:Hh; cbn.
  - destruct Htm as [t Ht].
    destruct (playerRef (refs st)) as [j|] eqn:Hj; cbn; rewrite ?Hh, ?Ht;
      cbn; rewrite decide_False by (cbn; tauto); by repeat split.
  - destruct (playerRef (refs st)) as [j|] eqn:Hj; cbn; rewrite ?Hh, ?Htm;
      by repeat split.
Qed.

(** X1: unmounting a mounted widget cancels the pending hide timeout, clears
    both refs, leaves no player live, and calls [destroy] only when a player
    was owned: with no owned player the players are untouched.  No host
    callback is called. *)
Theorem unmount_teardown st :
  reachable st → mounted st = true →
  let st' := step Unmount st in
  mounted st' = false ∧
  containerRef (refs st') = None ∧ playerRef (refs st') = None ∧
  hideControlsTimeoutRef (refs st') = None ∧ timeouts (page st') = [] ∧
  live_players st' = [] ∧
  length (players (page st')) = length (players (page st)) ∧
  (playerRef (refs st) = None → players (page st') = players (page st)) ∧
  hostCalls (page st') = hostCalls (page st).
Proof.
  intros HR Hm. pose proof (reachable_Inv _ HR) as HI. cbn zeta.
  destruct (cleanup_overlay st HI) as (Ht & Hh & _ & _ & Hc & _ & Hp).
  destruct (cleanup_frame st HI) as (_ & _ & _ & _ & Hl & _).
  pose proof (cleanup_playerRef st HI) as Hpr.
  unfold step, unmount. rewrite Hm. unfold commit. cbn.
  repeat split; try done.
  apply live_players_unowned; [|done].
  pose proof (Inv_step Unmount st HI) as HI'.
  unfold step, unmount in HI'. rewrite Hm in HI'. unfold commit in HI'.
  exact HI'.
Qed.
End Teardown.

(** Unmounting a ready player with a hide timeout pending, and unmounting
    while the script is still loading. *)
Lemma unmount_teardown_witness :
  let st := step (Pointer MouseMove)
              (step (SdkEvent 0 "ready")
                 (Fake.mounted_at 1000 true (Fake.watch "abc"))) in
  mounted st = true ∧ timeouts (page st) = [(1%nat, 4000)] ∧
  live_players st = [0%nat] ∧
  timeouts (page (step Unmount st)) = [] ∧
  live_players (step Unmount st) = [].
Proof.
  cbn zeta.
  assert (mounted (step (Pointer MouseMove)
              (step (SdkEvent 0 "ready")
                 (Fake.mounted_at 1000 true (Fake.watch "abc")))) = true)
    as Hm by (vm_compute; reflexivity).
  split; [exact Hm|]. split; [vm_compute; reflexivity|].
  split; [vm_compute; reflexivity|].
  destruct (unmount_teardown _
              (reachable_step _ _ (reachable_step _ _
                 (reachable_mount _ _ _))) Hm)
    as (_ & _ & _ & _ & Ht & Hl & _).
  split; [exact Ht|exact Hl].
Defined.

(** ** After the unmount, and under the error surface *)

Section NoConstruction.
Context {I : Type} `{!Sdk.TwitchPlayerInstance I}.
Implicit Types st : State I.

Lemma loadTwitchPlayer_no_container p st :
  containerRef (refs st) = None → exec (loadTwitchPlayer p) st = st.
Proof. intros Hc. rewrite loadTwitchPlayer_cases. by rewrite Hc. Qed.

Lemma effect_no_container p st :
  containerRef (refs st) = None →
  let st' := exec (effect p) st in
  players (page st') = players (page st) ∧
  playerRef (refs st') = playerRef (refs st) ∧ hooks st' = hooks st.
Proof.
  intros Hc. cbn zeta.
  assert (exec (effect p) st =
          if Twitch (page st) then exec (loadTwitchPlayer p) st
          else exec (appendChild_head
                       {| src := "https://embed.twitch.tv/embed/v1.js";
                          script_env := p; status := Pending |}) st) as ->.
  { unfold exec, effect, bind, gets. by destruct (Twitch (page st)). }
  destruct (Twitch (page st)); [by rewrite loadTwitchPlayer_no_container|].
  done.
Qed.

(** X2: once unmounted, always unmounted: no event mounts the widget again,
    constructs or changes a player, or sets a ref.  In particular a script
    that loads after the unmount finds the container ref null and returns. *)
Theorem unmounted_is_final e st :
  reachable st → mounted st = false →
  let st' := step e st in
  mounted st' = false ∧
  players (page st') = players (page st) ∧
  playerRef (refs st') = None ∧ containerRef (refs st') = None ∧
  live_players st' = [].
Proof.
  intros HR Hm. pose proof (reachable_Inv _ HR) as HI.
  destruct (inv_unmounted _ HI Hm) as [Hp Hc]. cbn zeta.
  assert (mounted (step e st) = false ∧
          players (page (step e st)) = players (page st)) as [Hm' Hpl].
  { unfold step.
    match goal with
    | |- context [commit ?s] =>
        destruct (commit_frame s) as (_ & -> & _ & _ & -> & _)
    end.
    destruct e as [p| |k|k|i name|pe|c|d]; cbn.
    - unfold set_props. by rewrite Hm.
    - unfold unmount. by rewrite Hm.
    - unfold script_load. destruct (head (page st) !! k) as [s|]; [|done].
      destruct (status s); try done.
      by rewrite loadTwitchPlayer_no_container.
    - unfold script_error. destruct (head (page st) !! k) as [s|]; [|done].
      by destruct (status s).
    - destruct (emit_frame i name st)
        as (_ & -> & _ & _ & _ & _ & _ & _ & -> & _). done.
    - unfold pointer. by rewrite Hm.
    - unfold exec. rewrite mutator_not_delegating; [done|by left].
    - destruct (elapse_spec d st HI) as (_ & -> & _ & -> & _). done. }
  pose proof (Inv_step e st HI) as HI'.
  destruct (inv_unmounted _ HI' Hm') as [Hp' Hc'].
  repeat split; try done. by apply live_players_unowned.
Qed.

(** A reachable state is a committed render: while the error surface is
    shown the container div is not in the document. *)
Lemma error_surface_no_container st :
  reachable st → error_shown st ≠ None → containerRef (refs st) = None.
Proof.
  intros HR He. pose proof (reachable_Inv _ HR) as HI.
  destruct (mounted st) eqn:Hm; [|by destruct (inv_unmounted _ HI Hm)].
  assert (∃ x, st = commit x) as [x ->]
    by (destruct HR; unfold mount, step; eauto).
  destruct (commit_frame x) as (Hh & _ & _ & _ & Hm' & _ & _).
  rewrite Hm' in Hm.
  assert (error_shown x ≠ None) as Hx
    by (unfold error_shown in *; by rewrite <- Hh).
  unfold commit, render. rewrite Hm.
  by destruct (error_shown x).
Qed.

(** X3: under the error surface nothing is retried: a configuration change
    still runs the cleanup, but then [loadTwitchPlayer] finds the container
    ref null and returns (or, without the SDK global, one more script is
    injected); a script that loads finds the same.  No player is
    constructed and the error stays. *)
Theorem error_surface_blocks_construction st :
  reachable st → mounted st = true → error_shown st ≠ None →
  (∀ p, let st' := step (SetProps p) st in
        length (players (page st')) = length (players (page st)) ∧
        playerRef (refs st') =
          (if decide (deps p = deps (props st))
           then playerRef (refs st) else None) ∧
        error (hooks st') = error (hooks st)) ∧
  (∀ k, let st' := step (ScriptLoad k) st in
        players (page st') = players (page st) ∧
        playerRef (refs st') = playerRef (refs st) ∧
        error (hooks st') = error (hooks st)).
Proof.
  intros HR Hm He. pose proof (reachable_Inv _ HR) as HI.
  pose proof (error_surface_no_container st HR He) as Hc. split.
  - intros p. cbn zeta. unfold step.
    match goal with
    | |- context [commit ?s] =>
        destruct (commit_frame s) as (-> & -> & -> & _)
    end.
    unfold set_props. rewrite Hm. case_decide; [done|].
    assert (Inv (with_props p st)) as HIp by by apply (Inv_frame st).
    destruct (cleanup_frame _ HIp) as (Hc' & Ht' & _ & _ & Hl' & _).
    destruct (cleanup_overlay _ HIp) as (_ & _ & _ & He' & _).
    pose proof (cleanup_playerRef _ HIp) as Hp'.
    cbn in Hc', Ht', Hl', He'. rewrite Hc in Hc'.
    destruct (effect_no_container p _ Hc') as (-> & -> & ->).
    by rewrite Hl', Hp', He'.
  - intros k. cbn zeta. unfold step.
    match goal with
    | |- context [commit ?s] =>
        destruct (commit_frame s) as (-> & -> & -> & _)
    end.
    unfold script_load. destruct (head (page st) !! k) as [s|]; [|done].
    destruct (status s); try done.
    by rewrite loadTwitchPlayer_no_container.
Qed.
End NoConstruction.

(** A script that loads after the unmount. *)
Lemma unmounted_is_final_witness :
  let st := step Unmount (Fake.mounted_at 1000 false (Fake.watch "abc")) in
  mounted st = false ∧
  status <$> head (page st) = [Pending] ∧
  players (page (step (ScriptLoad 0) st)) = [].
Proof.
  cbn zeta.
  assert (mounted (step Unmount
            (Fake.mounted_at 1000 false (Fake.watch "abc"))) = false)
    as Hm by (vm_compute; reflexivity).
  split; [exact Hm|]. split; [vm_compute; reflexivity|].
  destruct (unmounted_is_final (ScriptLoad 0)
              (step Unmount (Fake.mounted_at 1000 false (Fake.watch "abc")))
              (reachable_step _ _ (reachable_mount _ _ _)) Hm)
    as (_ & Hp & _).
  rewrite Hp. vm_compute. reflexivity.
Defined.

(** The constructor threw at the mount; then the configuration changes to
    props the constructor would accept. *)
Lemma error_surface_blocks_construction_witness :
  let st := Fake.mounted_at 1000 true Fake.nothing in
  mounted st = true ∧ error_shown st ≠ None ∧
  Sdk.Player (playerId_of 1000) (options_of (Fake.watch "abc"))
    ≠ Throw "no content" ∧
  length (players (page (step (SetProps (Fake.watch "abc")) st))) =
    length (players (page st)) ∧
  error (hooks (step (SetProps (Fake.watch "abc")) st)) = error (hooks st).
Proof.
  cbn zeta.
  assert (mounted (Fake.mounted_at 1000 true Fake.nothing) = true)
    as Hm by (vm_compute; reflexivity).
  assert (error_shown (Fake.mounted_at 1000 true Fake.nothing) ≠ None)
    as He by (vm_compute; discriminate).
  split; [exact Hm|]. split; [exact He|].
  split; [vm_compute; discriminate|].
  destruct (error_surface_blocks_construction
              (Fake.mounted_at 1000 true Fake.nothing)
              (reachable_mount _ _ _) Hm He)
    as (Hset & _).
  destruct (Hset (Fake.watch "abc")) as (Hl & _ & Herr).
  split; [exact Hl|exact Herr].
Defined.

(** ** Successful construction *)

Section Construction.
Context {I : Type} `{!Sdk.TwitchPlayerInstance I}.
Implicit Types st : State I.

Lemma live_players_the_owned st i :
  Inv st → playerRef (refs st) = Some i → live_players st = [i].
Proof.
  intros HI Hi.
  assert (i ∈ live_players st) as Hin.
  { apply elem_of_live_players. by apply inv_ref. }
  pose proof (live_players_at_most_one st HI) as Hle.
  destruct (live_players st) as [|a [|b l]]; cbn in Hle.
  - by apply elem_of_nil in Hin.
  - by apply list_elem_of_singleton in Hin as ->.
  - lia.
Qed.

(** The constructor returns: what [loadTwitchPlayer] leaves. *)
Lemma loadTwitchPlayer_returns p d st :
  Inv st → containerRef (refs st) ≠ None → Twitch (page st) = true →
  Sdk.Player (playerId_of (now (page st))) (options_of p) = Normal d →
  let st' := exec (loadTwitchPlayer p) st in
  let n := length (players (page st)) in
  playerRef (refs st') = Some n ∧
  players (page st') !! n =
    Some {| elementId := playerId_of (now (page st));
            options := options_of p; listeners := bridge p;
            destroyed := false; impl := d |} ∧
  length (players (page st')) = S n ∧
  live_players st' = [n] ∧
  containerRef (refs st') =
    Some (container_html (playerId_of (now (page st)))) ∧
  isLoading (hooks st') = isLoading (hooks st) ∧
  error (hooks st') = error (hooks st) ∧
  isPaused (hooks st') = isPaused (hooks st) ∧
  props st' = props st ∧ mounted st' = mounted st ∧
  hostCalls (page st') = hostCalls (page st).
Proof.
  intros HI Hc Ht Hd. cbn zeta.
  pose proof (Inv_loadTwitchPlayer p st HI) as HI'.
  rewrite loadTwitchPlayer_cases in HI' |- *.
  destruct (containerRef (refs st)) as [c|]; [|done].
  rewrite Ht, Hd in HI' |- *.
  destruct (destroy_current_player_spec st HI)
    as (_ & _ & Hlen & _ & _ & Hl & Hpa & _ & He & _ & Hm & Hpr & Hn & _ & _
        & _ & _ & Hhc & _).
  assert (length (players (page (before_construct st))) =
          length (players (page st))) as Hlen' by exact Hlen.
  assert (playerRef (refs (constructed p d (before_construct st))) =
          Some (length (players (page st)))) as Hp.
  { cbn. by rewrite Hlen. }
  split; [done|]. split.
  { cbn. rewrite <- Hlen. rewrite Hn. by apply list_lookup_middle. }
  split; [cbn; rewrite length_app, Hlen; cbn; lia|].
  split; [by apply live_players_the_owned|].
  cbn. by rewrite Hl, He, Hpa, Hpr, Hm, Hhc.
Qed.

(** X4: a mount with the SDK present and a constructor that returns: the one
    player is constructed on the id of the div just written into the
    container, with the options of the props (sizes defaulting to 100%) and
    the five listeners; it is owned and live.  The hooks keep their initial
    values, so the render shows the loading overlay and no controls until
    the SDK reports ready, and no host callback has been called. *)
Theorem mount_constructs p t d :
  Sdk.Player (playerId_of t) (options_of p) = Normal d →
  let st' := mount p (initial_page t true) in
  players (page st') =
    [{| elementId := playerId_of t; options := options_of p;
        listeners := bridge p; destroyed := false; impl := d |}] ∧
  playerRef (refs st') = Some 0%nat ∧
  containerRef (refs st') = Some (container_html (playerId_of t)) ∧
  divIds (page st') = [playerId_of t] ∧
  hooks st' = {| isLoading := true; error := None; isPlayerReady := false;
                 isPaused := true; showControls := false |} ∧
  render st' = Container (width_of p) (height_of p) true "auto" None ∧
  head (page st') = [] ∧ hostCalls (page st') = [] ∧
  timeouts (page st') = [].
Proof.
  intros Hd. cbn zeta. unfold mount.
  match goal with
  | |- context [exec (effect p) ?s0] =>
      assert (exec (effect p) s0 = exec (loadTwitchPlayer p) s0) as -> by done
  end.
  rewrite loadTwitchPlayer_cases. cbn. rewrite Hd.
  unfold commit, render, error_shown. cbn. by repeat split.
Qed.

(** X5: a script that loads runs [loadTwitchPlayer] with the props of the effect
    run that injected it: the player it constructs has the options and the
    callbacks of those props, whatever the props of the widget are by then,
    and it replaces the player owned until then. *)
Theorem late_script_constructs_from_its_props k s d st :
  reachable st → head (page st) !! k = Some s → status s = Pending →
  containerRef (refs st) ≠ None →
  Sdk.Player (playerId_of (now (page st))) (options_of (script_env s))
    = Normal d →
  let st' := step (ScriptLoad k) st in
  let n := length (players (page st)) in
  playerRef (refs st') = Some n ∧
  players (page st') !! n =
    Some {| elementId := playerId_of (now (page st));
            options := options_of (script_env s);
            listeners := bridge (script_env s);
            destroyed := false; impl := d |} ∧
  live_players st' = [n] ∧
  props st' = props st.
Proof.
  intros HI%reachable_Inv Hk Hs Hc Hd. cbn zeta.
  pose proof (Inv_step (ScriptLoad k) st HI) as HI'.
  unfold step, script_load in HI' |- *. rewrite Hk, Hs in HI' |- *.
  match goal with
  | |- context [exec (loadTwitchPlayer ?q) ?s0] =>
      destruct (loadTwitchPlayer_returns q d s0)
        as (Hp & Hl & _ & _ & _ & _ & _ & _ & Hpr & _); try done;
      [by apply (Inv_frame st)|];
      destruct (commit_frame (exec (loadTwitchPlayer q) s0))
        as (_ & Hpg & Hrf & _ & _ & Hpp & _)
  end.
  rewrite Hpg, Hrf, Hpp. cbn in Hp, Hl, Hpr.
  split; [done|]. split; [done|]. split; [|done].
  apply live_players_the_owned; [done|]. by rewrite Hrf.
Qed.
End Construction.

Lemma mount_constructs_witness :
  let st := Fake.mounted_at 1000 true (Fake.watch "abc") in
  (∃ d, Sdk.Player (playerId_of 1000) (options_of (Fake.watch "abc"))
        = Normal d) ∧
  playerRef (refs st) = Some 0%nat ∧
  render st = Container (DimString "100%") (DimString "100%") true "auto"
                        None.
Proof.
  cbn zeta.
  destruct (Sdk.Player (playerId_of 1000) (options_of (Fake.watch "abc")))
    as [d|e] eqn:Hd; [|vm_compute in Hd; discriminate].
  split; [by exists d|].
  destruct (mount_constructs (Fake.watch "abc") 1000 d Hd)
    as (_ & Hp & _ & _ & _ & Hr & _).
  split; [exact Hp|exact Hr].
Defined.

(** The race of two scripts: the props change while the first script is
    loading; the second script loads first; then the first one loads and
    constructs a player for the channel the widget no longer shows. *)
Lemma late_script_constructs_from_its_props_witness :
  let st := step (ScriptLoad 1)
              (step (SetProps (Fake.watch "xyz"))
                 (Fake.mounted_at 1000 false (Fake.watch "abc"))) in
  let st' := step (ScriptLoad 0) st in
  channel (props st) = Some "xyz" ∧
  opt_channel <$> (options <$> players (page st')) =
    [Some "xyz"; Some "abc"] ∧
  destroyed <$> players (page st') = [true; false] ∧
  playerRef (refs st') = Some 1%nat ∧ props st' = props st.
Proof.
  cbn zeta.
  split; [vm_compute; reflexivity|]. split; [vm_compute; reflexivity|].
  split; [vm_compute; reflexivity|].
  destruct (head (page (step (ScriptLoad 1)
              (step (SetProps (Fake.watch "xyz"))
                 (Fake.mounted_at 1000 false (Fake.watch "abc")))))
              !! 0%nat) as [s|] eqn:Hk; [|vm_compute in Hk; discriminate].
  assert (status s = Pending ∧ script_env s = Fake.watch "abc") as [Hs Henv].
  { vm_compute in Hk. by injection Hk as <-. }
  destruct (Sdk.Player
              (playerId_of (now (page (step (ScriptLoad 1)
                 (step (SetProps (Fake.watch "xyz"))
                    (Fake.mounted_at 1000 false (Fake.watch "abc")))))))
              (options_of (script_env s))) as [d|e] eqn:Hd;
    [|rewrite Henv in Hd; vm_compute in Hd; discriminate].
  destruct (late_script_constructs_from_its_props 0 s d _
              (reachable_step _ _
                 (reachable_step _ _ (reachable_mount _ _ _)))
              Hk Hs) as (Hp & _ & _ & Hpr); [vm_compute; discriminate|exact Hd|].
  split; [|exact Hpr]. etransitivity; [exact Hp|]. vm_compute. reflexivity.
Defined.

(** ** The handle while ready *)

Section Delegation.
Context {I : Type} `{!Sdk.TwitchPlayerInstance I}.
Implicit Types st : State I.

Lemma guard_holds st i :
  playerRef (refs st) = Some i → isPlayerReady (hooks st) = true →
  playerRef_and_isPlayerReady st = Some i.
Proof. unfold playerRef_and_isPlayerReady. by intros -> ->. Qed.

Lemma mutator_delegating c i st :
  playerRef (refs st) = Some i → isPlayerReady (hooks st) = true →
  mutator c st = invoke i (method_of c (isPaused (hooks st))) st.
Proof.
  intros Hi Hr. pose proof (guard_holds st i Hi Hr) as Hg.
  destruct c; cbn; unfold bind, gets; rewrite Hg; try done.
  by destruct (isPaused (hooks st)).
Qed.

(** X6: with a player owned and the ready flag set, each mutator of the handle
    makes one call of its SDK method on the owned player, which is live.  If
    the method returns, only that player's state changes: hooks (the paused
    flag among them), refs, the other players and the host log stay as they
    were.  If the method throws, the error reaches the caller and the state
    is unchanged. *)
Theorem mutators_delegate_when_ready c i st :
  reachable st → playerRef (refs st) = Some i →
  isPlayerReady (hooks st) = true →
  ∃ o, players (page st) !! i = Some o ∧ destroyed o = false ∧
    match method_of c (isPaused (hooks st)) (impl o) with
    | Normal d =>
        mutator c st =
          (Normal tt,
           on_page (page_players
                      (<[i := player_impl d o]> (players (page st)))) st)
    | Throw e => mutator c st = (Throw e, st)
    end.
Proof.
  intros HI%reachable_Inv Hi Hr.
  destruct (inv_ref _ HI _ Hi) as (o & Ho & Hd).
  exists o. split; [done|]. split; [done|].
  rewrite (mutator_delegating c i st Hi Hr). unfold invoke. rewrite Ho.
  by destruct (method_of c (isPaused (hooks st)) (impl o)).
Qed.

(** X7: with a player owned and the ready flag set, each getter of the handle
    returns what the SDK's getter returns on the owned, live player (or
    throws what it throws), and leaves the state unchanged. *)
Theorem accessors_delegate_when_ready i st :
  reachable st → playerRef (refs st) = Some i →
  isPlayerReady (hooks st) = true →
  ∃ o, players (page st) !! i = Some o ∧ destroyed o = false ∧
    TwitchPlayerRef.getVolume st = (Sdk.getVolume (impl o), st) ∧
    TwitchPlayerRef.getMuted st = (Sdk.getMuted (impl o), st) ∧
    TwitchPlayerRef.getCurrentTime st = (Sdk.getCurrentTime (impl o), st) ∧
    TwitchPlayerRef.getDuration st = (Sdk.getDuration (impl o), st) ∧
    TwitchPlayerRef.getChannel st = (Sdk.getChannel (impl o), st).
Proof.
  intros HI%reachable_Inv Hi Hr.
  destruct (inv_ref _ HI _ Hi) as (o & Ho & Hd).
  pose proof (guard_holds st i Hi Hr) as Hg.
  exists o. split; [done|]. split; [done|].
  unfold TwitchPlayerRef.getVolume, TwitchPlayerRef.getMuted,
    TwitchPlayerRef.getCurrentTime, TwitchPlayerRef.getDuration,
    TwitchPlayerRef.getChannel, bind, gets, query.
  by rewrite Hg, Ho.
Qed.
End Delegation.

(** A ready player: [pause()] reaches the SDK, yet [isPaused()] still
    answers false until the SDK's pause event; a seek the SDK rejects
    throws to the caller. *)
Lemma mutators_delegate_when_ready_witness :
  let st := step (SdkEvent 0 "ready")
                 (Fake.mounted_at 1000 true (Fake.watch "abc")) in
  playerRef (refs st) = Some 0%nat ∧ isPlayerReady (hooks st) = true ∧
  isPaused (hooks (step (Call CallPause) st)) = false ∧
  (mutator (CallSeek (-1)%Q) st).1 = Throw "bad timestamp" ∧
  ∃ o, players (page st) !! 0%nat = Some o ∧ destroyed o = false.
Proof.
  cbn zeta.
  assert (playerRef (refs (step (SdkEvent 0 "ready")
            (Fake.mounted_at 1000 true (Fake.watch "abc")))) = Some 0%nat)
    as Hi by (vm_compute; reflexivity).
  assert (isPlayerReady (hooks (step (SdkEvent 0 "ready")
            (Fake.mounted_at 1000 true (Fake.watch "abc")))) = true)
    as Hr by (vm_compute; reflexivity).
  split; [exact Hi|]. split; [exact Hr|].
  split; [vm_compute; reflexivity|]. split; [vm_compute; reflexivity|].
  destruct (mutators_delegate_when_ready CallPause 0 _
              (reachable_step _ _ (reachable_mount _ _ _)) Hi Hr)
    as (o & Ho & Hd & _).
  exists o. split; [exact Ho|exact Hd].
Defined.

Lemma accessors_delegate_when_ready_witness :
  let st := step (SdkEvent 0 "ready")
                 (Fake.mounted_at 1000 true (Fake.watch "abc")) in
  playerRef (refs st) = Some 0%nat ∧ isPlayerReady (hooks st) = true ∧
  (TwitchPlayerRef.getChannel st).1 = Normal "abc" ∧
  ∃ o, players (page st) !! 0%nat = Some o ∧
       TwitchPlayerRef.getVolume st = (Sdk.getVolume (impl o), st).
Proof.
  cbn zeta.
  assert (playerRef (refs (step (SdkEvent 0 "ready")
            (Fake.mounted_at 1000 true (Fake.watch "abc")))) = Some 0%nat)
    as Hi by (vm_compute; reflexivity).
  assert (isPlayerReady (hooks (step (SdkEvent 0 "ready")
            (Fake.mounted_at 1000 true (Fake.watch "abc")))) = true)
    as Hr by (vm_compute; reflexivity).
  split; [exact Hi|]. split; [exact Hr|].
  split; [vm_compute; reflexivity|].
  destruct (accessors_delegate_when_ready 0 _
              (reachable_step _ _ (reachable_mount _ _ _)) Hi Hr)
    as (o & Ho & _ & Hv & _).
  exists o. split; [exact Ho|exact Hv].
Defined.

(** ** Host callbacks *)

Section HostLog.
Context {I : Type} `{!Sdk.TwitchPlayerInstance I}.
Implicit Types st : State I.

Lemma hostCalls_destroy_current_player st :
  hostCalls (page (exec destroy_current_player st)) = hostCalls (page st).
Proof. js. by destruct (playerRef (refs st)). Qed.

Lemma hostCalls_clearHideTimeout st :
  hostCalls (page (exec clearHideTimeout st)) = hostCalls (page st).
Proof. js. by destruct (hideControlsTimeoutRef (refs st)). Qed.

Lemma hostCalls_cleanup st :
  hostCalls (page (exec cleanup st)) = hostCalls (page st).
Proof.
  unfold exec, cleanup, bind.
  pose proof (hostCalls_clearHideTimeout st) as Hc.
  pose proof (clearHideTimeout_returns st) as Hr. unfold exec in Hc.
  destruct (clearHideTimeout st) as [r st1]. cbn [fst snd] in *. subst r.
  rewrite <- Hc. apply hostCalls_destroy_current_player.
Qed.

Lemma hostCalls_loadTwitchPlayer p st :
  hostCalls (page (exec (loadTwitchPlayer p) st)) = hostCalls (page st).
Proof.
  rewrite loadTwitchPlayer_cases.
  destruct (containerRef (refs st)); [|done].
  assert (hostCalls (page (before_construct st)) = hostCalls (page st)) as Hb
    by apply hostCalls_destroy_current_player.
  destruct (Twitch (page st)); [|done].
  by destruct (Sdk.Player _ _).
Qed.

Lemma hostCalls_effect p st :
  hostCalls (page (exec (effect p) st)) = hostCalls (page st).
Proof.
  assert (exec (effect p) st =
          if Twitch (page st) then exec (loadTwitchPlayer p) st
          else exec (appendChild_head
                       {| src := "https://embed.twitch.tv/embed/v1.js";
                          script_env := p; status := Pending |}) st) as ->.
  { unfold exec, effect, bind, gets. by destruct (Twitch (page st)). }
  destruct (Twitch (page st)); [apply hostCalls_loadTwitchPlayer|done].
Qed.

Lemma hostCalls_handleMouseActivity st :
  hostCalls (page (exec handleMouseActivity st)) = hostCalls (page st).
Proof. js. by destruct (hideControlsTimeoutRef (refs st)). Qed.

Lemma hostCalls_handleMouseLeave st :
  hostCalls (page (exec handleMouseLeave st)) = hostCalls (page st).
Proof. js. by destruct (hideControlsTimeoutRef (refs st)). Qed.

Lemma hostCalls_handlePlayPause st :
  hostCalls (page (exec handlePlayPause st)) = hostCalls (page st).
Proof.
  unfold exec, handlePlayPause. unfold bind at 1 2 3, gets.
  assert (∀ i m, hostCalls (page ((invoke i m ;; handleMouseActivity) st).2)
                 = hostCalls (page st)) as Hm.
  { intros i m. destruct (invoke_frame i m st) as (_ & _ & _ & _ & Hc & _).
    unfold bind. destruct (invoke i m st) as [[[]|e] st1];
      cbn [fst snd] in *; [|done].
    rewrite <- Hc. apply hostCalls_handleMouseActivity. }
  destruct (playerRef_and_isPlayerReady st) as [i|].
  - destruct (isPaused (hooks st)); apply Hm.
  - apply hostCalls_handleMouseActivity.
Qed.

Lemma hostCalls_run_listener i l st :
  ∃ calls, hostCalls (page (exec (run_listener i l) st)) =
           (hostCalls (page st) ++ calls)%list.
Proof.
  destruct l; unfold exec, run_listener, bind; cbn;
    try (destruct cb; cbn; [by eexists|exists []; by rewrite app_nil_r]).
  unfold query. destruct (players (page st) !! i) as [o|];
    [|exists []; by rewrite app_nil_r].
  destruct (Sdk.getCurrentTime (impl o));
    [|exists []; by rewrite app_nil_r].
  destruct cb; cbn; [by eexists|exists []; by rewrite app_nil_r].
Qed.

(** X8: host callbacks are called from the SDK's events and from nowhere else:
    a render with new props, an unmount, a script settling, a pointer event,
    a call through the handle and a timeout all leave the log of host calls
    as it was; an SDK event only appends to it. *)
Theorem host_callbacks_only_from_sdk_events e st :
  (∃ calls, hostCalls (page (step e st)) =
            (hostCalls (page st) ++ calls)%list) ∧
  ((∀ i name, e ≠ SdkEvent i name) →
   hostCalls (page (step e st)) = hostCalls (page st)).
Proof.
  unfold step.
  match goal with
  | |- context [commit ?s] => destruct (commit_frame s) as (_ & -> & _)
  end.
  assert (∀ s : State I, hostCalls (page s) = hostCalls (page st) →
            (∃ calls, hostCalls (page s) = (hostCalls (page st) ++ calls)%list)
            ∧ hostCalls (page s) = hostCalls (page st)) as Hsame.
  { intros s Hs. split; [|done]. exists []. by rewrite app_nil_r. }
  destruct e as [p| |k|k|i name|pe|c|d].
  - destruct (Hsame (set_props p st)) as [H1 H2]; [|by split].
    unfold set_props. destruct (mounted st); [|done].
    case_decide; [done|]. by rewrite hostCalls_effect, hostCalls_cleanup.
  - destruct (Hsame (unmount st)) as [H1 H2]; [|by split].
    unfold unmount. destruct (mounted st); [|done]. cbn.
    apply hostCalls_cleanup.
  - destruct (Hsame (script_load k st)) as [H1 H2]; [|by split].
    unfold script_load. destruct (head (page st) !! k) as [s|]; [|done].
    destruct (status s); try done. by rewrite hostCalls_loadTwitchPlayer.
  - destruct (Hsame (script_error k st)) as [H1 H2]; [|by split].
    unfold script_error. destruct (head (page st) !! k) as [s|]; [|done].
    by destruct (status s).
  - split; [|intros Hne; by destruct (Hne i name)].
    unfold emit. destruct (players (page st) !! i) as [o|];
      [|exists []; by rewrite app_nil_r].
    generalize (listeners o). intros ls.
    assert (∀ s, (∃ calls, hostCalls (page s) =
                           (hostCalls (page st) ++ calls)%list) →
              ∃ calls,
                hostCalls (page (foldl (λ s nl,
                    if decide (nl.1 = name)
                    then exec (run_listener i nl.2) s else s) s ls)) =
                (hostCalls (page st) ++ calls)%list) as Hgen.
    { induction ls as [|[n l] ls IH]; intros s Hs; [done|].
      cbn. apply IH. case_decide; [|done].
      destruct Hs as [c1 Hc1].
      destruct (hostCalls_run_listener i l s) as [c2 Hc2].
      exists (c1 ++ c2)%list. cbn. by rewrite Hc2, Hc1, app_assoc. }
    apply Hgen. exists []. by rewrite app_nil_r.
  - destruct (Hsame (pointer pe st)) as [H1 H2]; [|by split].
    unfold pointer. destruct (mounted st); [|done].
    destruct (render st) as [| ? ? ? ? controls]; [done|].
    destruct pe; [apply hostCalls_handleMouseActivity..
                 |apply hostCalls_handleMouseLeave|].
    destruct controls; [|done].
    by rewrite hostCalls_handleMouseActivity, hostCalls_handlePlayPause.
  - destruct (Hsame (exec (mutator c) st)) as [H1 H2]; [|by split].
    unfold exec.
    destruct c; cbn; unfold TwitchPlayerRef.play, TwitchPlayerRef.pause,
      TwitchPlayerRef.togglePlayPause, TwitchPlayerRef.seek,
      TwitchPlayerRef.setVolume, TwitchPlayerRef.setMuted,
      TwitchPlayerRef.setChannel, TwitchPlayerRef.setVideo, bind, gets;
      destruct (playerRef_and_isPlayerReady st); try done;
      try destruct (isPaused (hooks st));
      match goal with
      | |- context [invoke ?i ?m st] =>
          by destruct (invoke_frame i m st) as (_ & _ & _ & _ & -> & _)
      end.
  - destruct (Hsame (elapse d st)) as [H1 H2]; [|by split].
    unfold elapse. cbn zeta.
    match goal with
    | |- context [foldl ?f ?s0 ?l] =>
        destruct (hideControls_runs l s0) as (-> & _)
    end.
    done.
Qed.
End HostLog.

(** A pointer move over a ready player calls no host callback. *)
Lemma host_callbacks_only_from_sdk_events_witness :
  let st := step (SdkEvent 0 "ready")
                 (Fake.mounted_at 1000 true (Fake.watch "abc")) in
  hostCalls (page st) = [Called 1%nat []] ∧
  hostCalls (page (step (Pointer MouseMove) st)) = hostCalls (page st).
Proof.
  cbn zeta. split; [vm_compute; reflexivity|].
  destruct (host_callbacks_only_from_sdk_events (Pointer MouseMove)
              (step (SdkEvent 0 "ready")
                    (Fake.mounted_at 1000 true (Fake.watch "abc"))))
    as (_ & Hsame).
  apply Hsame. intros i name. discriminate.
Defined.

(** ** The overlay across a configuration change *)

Section OverlayAcrossChange.
Context {I : Type} `{!Sdk.TwitchPlayerInstance I}.
Implicit Types st : State I.

Lemma loadTwitchPlayer_overlay p st :
  Inv st →
  let st' := exec (loadTwitchPlayer p) st in
  showControls (hooks st') = showControls (hooks st) ∧
  hideControlsTimeoutRef (refs st') = hideControlsTimeoutRef (refs st) ∧
  timeouts (page st') = timeouts (page st).
Proof.
  intros HI. cbn zeta.
  destruct (loadTwitchPlayer_page p st) as (_ & Ht & _).
  split; [|split; [|done]].
  - rewrite loadTwitchPlayer_cases.
    destruct (containerRef (refs st)); [|done].
    destruct (destroy_current_player_spec st HI)
      as (_ & _ & _ & _ & _ & _ & _ & Hs & _).
    assert (showControls (hooks (before_construct st)) =
            showControls (hooks st)) as Hb by exact Hs.
    destruct (Twitch (page st)); [|done]. by destruct (Sdk.Player _ _).
  - rewrite loadTwitchPlayer_cases.
    destruct (containerRef (refs st)); [|done].
    destruct (destroy_current_player_spec st HI)
      as (_ & _ & _ & _ & Hh & _).
    assert (hideControlsTimeoutRef (refs (before_construct st)) =
            hideControlsTimeoutRef (refs st)) as Hb by exact Hh.
    destruct (Twitch (page st)); [|done]. by destruct (Sdk.Player _ _).
Qed.

(** X9: a configuration change cancels the pending hide timeout (the cleanup
    calls [clearHideTimeout]) but does not hide the controls: controls that
    were shown stay shown, with no timeout pending, however much time passes,
    until the next pointer event. *)
Theorem config_change_cancels_hide_timer p st :
  reachable st → mounted st = true → deps p ≠ deps (props st) →
  let st' := step (SetProps p) st in
  timeouts (page st') = [] ∧
  hideControlsTimeoutRef (refs st') = None ∧
  showControls (hooks st') = showControls (hooks st) ∧
  ∀ d : N, showControls (hooks (step (Elapse d) st')) =
           showControls (hooks st).
Proof.
  intros HI%reachable_Inv Hm Hd. cbn zeta.
  pose proof (Inv_step (SetProps p) st HI) as HI'.
  assert (timeouts (page (step (SetProps p) st)) = [] ∧
          hideControlsTimeoutRef (refs (step (SetProps p) st)) = None ∧
          showControls (hooks (step (SetProps p) st)) =
            showControls (hooks st)) as (Ht & Hh & Hs).
  { unfold step.
    match goal with
    | |- context [commit ?s] =>
        destruct (commit_frame s) as (-> & -> & _ & -> & _)
    end.
    unfold set_props. rewrite Hm, decide_False by done.
    assert (Inv (with_props p st)) as HIp by by apply (Inv_frame st).
    destruct (cleanup_overlay _ HIp) as (Ht & Hh & Hs & _).
    pose proof (Inv_cleanup _ HIp) as HIc.
    assert (exec (effect p) (exec cleanup (with_props p st)) =
            if Twitch (page (exec cleanup (with_props p st)))
            then exec (loadTwitchPlayer p) (exec cleanup (with_props p st))
            else exec (appendChild_head
                         {| src := "https://embed.twitch.tv/embed/v1.js";
                            script_env := p; status := Pending |})
                      (exec cleanup (with_props p st))) as ->.
    { unfold exec at 1, effect, bind, gets.
      by destruct (Twitch (page (exec cleanup (with_props p st)))). }
    destruct (Twitch (page (exec cleanup (with_props p st)))).
    - destruct (loadTwitchPlayer_overlay p _ HIc) as (-> & -> & ->). done.
    - done. }
  split; [done|]. split; [done|]. split; [done|].
  intros d. unfold step at 1.
  destruct (commit_frame (elapse d (step (SetProps p) st))) as (-> & _).
  pose proof (elapse_spec d _ HI') as HE. cbn zeta in HE.
  destruct HE as (_ & _ & _ & _ & _ & _ & _ & _ & _ & HE).
  rewrite Ht in HE. destruct HE as (_ & _ & ->). done.
Qed.
End OverlayAcrossChange.

(** A move shows the controls; one second later the channel changes; the
    controls are still shown a minute after that. *)
Lemma config_change_cancels_hide_timer_witness :
  let st := step (Elapse 1000)
              (step (Pointer MouseMove)
                 (step (SdkEvent 0 "ready")
                    (Fake.mounted_at 1000 true (Fake.watch "abc")))) in
  let st' := step (SetProps (Fake.watch "xyz")) st in
  mounted st = true ∧ deps (Fake.watch "xyz") ≠ deps (props st) ∧
  timeouts (page st) = [(1%nat, 4000)] ∧
  showControls (hooks st) = true ∧
  timeouts (page st') = [] ∧
  showControls (hooks (step (Elapse 60000) st')) = showControls (hooks st).
Proof.
  cbn zeta.
  assert (mounted (step (Elapse 1000)
              (step (Pointer MouseMove)
                 (step (SdkEvent 0 "ready")
                    (Fake.mounted_at 1000 true (Fake.watch "abc"))))) = true)
    as Hm by (vm_compute; reflexivity).
  assert (deps (Fake.watch "xyz") ≠
          deps (props (step (Elapse 1000)
              (step (Pointer MouseMove)
                 (step (SdkEvent 0 "ready")
                    (Fake.mounted_at 1000 true (Fake.watch "abc")))))))
    as Hd by (vm_compute; discriminate).
  split; [exact Hm|]. split; [exact Hd|].
  split; [vm_compute; reflexivity|]. split; [vm_compute; reflexivity|].
  destruct (config_change_cancels_hide_timer (Fake.watch "xyz") _
              (reachable_step _ _ (reachable_step _ _
                 (reachable_step _ _ (reachable_mount _ _ _)))) Hm Hd)
    as (Ht & _ & _ & Hidle).
  split; [exact Ht|exact (Hidle 60000%N)].
Defined.

(** ** The application shell *)

(** [get] returns the value of the first pair with the name. *)
Lemma App_get_first (q1 q2 : App.URLSearchParams) name v :
  (∀ n w, (n, w) ∈ q1 → n ≠ name) →
  App.get (q1 ++ (name, v) :: q2)%list name = Some v.
Proof.
  induction q1 as [|[n w] q1 IH]; intros Hq; cbn.
  - by rewrite decide_True.
  - rewrite decide_False; [|apply (Hq n w); by left].
    apply IH. intros n' w' Hin. apply (Hq n' w'). by right.
Qed.

(** X14: [App] renders the player exactly when the query has a [channel]
    parameter whose first value is not empty; the player then gets that
    value as its channel and nothing else: no video, no collection, default
    sizes, no callbacks.  With no such parameter, or an empty first value,
    it renders the placeholder. *)
Theorem App_renders_player_iff_channel (q : App.URLSearchParams) :
  (∀ c, App.get q "channel" = Some c → c ≠ "" →
        App.render (App.mount q) =
        App.Player {| channel := Some c; video := None; collection := None;
                      width := None; height := None;
                      onReady := None; onPlay := None; onPause := None;
                      onEnded := None; onSeek := None |}) ∧
  (App.get q "channel" = None ∨ App.get q "channel" = Some "" →
   App.render (App.mount q) = App.NoChannel "Enter a channel name") ∧
  (∀ p, App.render (App.mount q) = App.Player p →
        ∃ c, c ≠ "" ∧ App.get q "channel" = Some c ∧ channel p = Some c ∧
             options_of p =
               {| opt_channel := Some c; opt_video := None;
                  opt_collection := None;
                  opt_width := DimString "100%";
                  opt_height := DimString "100%" |}).
Proof.
  unfold App.mount, App.effect, App.render. split; [|split].
  - intros c -> Hc. destruct (decide (c = "")) as [->|_]; [done|].
    by rewrite decide_False.
  - intros [-> | ->]; done.
  - intros p. destruct (App.get q "channel") as [c|]; [|done].
    destruct (decide (c = "")) as [->|Hc]; [done|].
    rewrite decide_False by done. intros [= <-]. by exists c.
Qed.

(** [?channel=&channel=abc]: the first value is empty, so the placeholder is
    rendered; [?x=1&channel=abc&channel=xyz]: the player for [abc]. *)
Lemma App_renders_player_iff_channel_witness :
  App.render (App.mount [("channel", ""); ("channel", "abc")]) =
    App.NoChannel "Enter a channel name" ∧
  ∃ p, App.render (App.mount [("x", "1"); ("channel", "abc");
                              ("channel", "xyz")]) = App.Player p ∧
       channel p = Some "abc".
Proof.
  destruct (App_renders_player_iff_channel
              [("channel", ""); ("channel", "abc")]) as (_ & Hnone & _).
  split; [apply Hnone; right; vm_compute; reflexivity|].
  destruct (App_renders_player_iff_channel
              [("x", "1"); ("channel", "abc"); ("channel", "xyz")])
    as (Hsome & _).
  eexists. split.
  - apply (Hsome "abc"); [vm_compute; reflexivity|discriminate].
  - reflexivity.
Defined.

(** ** The hooks along a life *)

Section HooksAdvance.
Context {I : Type} `{!Sdk.TwitchPlayerInstance I}.
Implicit Types st : State I.

Lemma hooks_advance_refl b h : hooks_advance b h h.
Proof. unfold hooks_advance. tauto. Qed.

Lemma hooks_advance_trans b h1 h2 h3 :
  hooks_advance b h1 h2 → hooks_advance b h2 h3 → hooks_advance b h1 h3.
Proof.
  unfold hooks_advance. intros (Hl1 & Hp1 & He1) (Hl2 & Hp2 & He2).
  split; [tauto|]. split.
  - intros Hb. by rewrite Hp2, Hp1.
  - destruct He2 as [-> | He2]; tauto.
Qed.

Lemma hooks_advance_weaken b h h' :
  hooks_advance true h h' → hooks_advance b h h'.
Proof. unfold hooks_advance. intros (? & Hp & ?). auto. Qed.

Lemma hooks_advance_eq b st st' :
  hooks st' = hooks st → hooks_advance b (hooks st) (hooks st').
Proof. intros ->. apply hooks_advance_refl. Qed.

Lemma advance_destroy_current_player st :
  hooks_advance true (hooks st) (hooks (exec destroy_current_player st)).
Proof.
  js. destruct (playerRef (refs st)); cbn; unfold hooks_advance; cbn; tauto.
Qed.

Lemma advance_cleanup st :
  hooks_advance true (hooks st) (hooks (exec cleanup st)).
Proof.
  unfold exec, cleanup, bind.
  destruct (clearHideTimeout_frame st) as (Hh & _).
  pose proof (clearHideTimeout_returns st) as Hr. unfold exec in Hh.
  destruct (clearHideTimeout st) as [r st1]. cbn [fst snd] in *. subst r.
  rewrite <- Hh. apply advance_destroy_current_player.
Qed.

Lemma advance_loadTwitchPlayer p st :
  hooks_advance true (hooks st) (hooks (exec (loadTwitchPlayer p) st)).
Proof.
  rewrite loadTwitchPlayer_cases.
  destruct (containerRef (refs st)); [|apply hooks_advance_refl].
  pose proof (advance_destroy_current_player st) as Hd.
  assert (hooks (before_construct st) =
          hooks (exec destroy_current_player st)) as Hb by done.
  assert (∀ e, hooks_advance true (hooks st)
                 (hooks (failed e (before_construct st)))) as Hf.
  { intros e. eapply hooks_advance_trans; [exact Hd|]. rewrite <- Hb.
    unfold hooks_advance. cbn. tauto. }
  destruct (Twitch (page st)); [|apply Hf].
  destruct (Sdk.Player _ _); [|apply Hf].
  by rewrite <- Hb in Hd.
Qed.

Lemma advance_effect p st :
  hooks_advance true (hooks st) (hooks (exec (effect p) st)).
Proof.
  assert (exec (effect p) st =
          if Twitch (page st) then exec (loadTwitchPlayer p) st
          else exec (appendChild_head
                       {| src := "https://embed.twitch.tv/embed/v1.js";
                          script_env := p; status := Pending |}) st) as ->.
  { unfold exec, effect, bind, gets. by destruct (Twitch (page st)). }
  destruct (Twitch (page st));
    [apply advance_loadTwitchPlayer|apply hooks_advance_refl].
Qed.

Lemma advance_handleMouseActivity st :
  hooks_advance true (hooks st) (hooks (exec handleMouseActivity st)).
Proof.
  js. destruct (hideControlsTimeoutRef (refs st)); cbn;
    unfold hooks_advance; cbn; tauto.
Qed.

Lemma advance_handleMouseLeave st :
  hooks_advance true (hooks st) (hooks (exec handleMouseLeave st)).
Proof.
  js. destruct (hideControlsTimeoutRef (refs st)); cbn;
    unfold hooks_advance; cbn; tauto.
Qed.

Lemma advance_handlePlayPause st :
  hooks_advance true (hooks st) (hooks (exec handlePlayPause st)).
Proof.
  unfold exec, handlePlayPause. unfold bind at 1 2 3, gets.
  assert (∀ i m, hooks_advance true (hooks st)
                   (hooks ((invoke i m ;; handleMouseActivity) st).2)) as Hm.
  { intros i m. destruct (invoke_frame i m st) as (Hh & _).
    unfold bind. destruct (invoke i m st) as [[[]|e] st1];
      cbn [fst snd] in *; [|by apply hooks_advance_eq].
    rewrite <- Hh. apply advance_handleMouseActivity. }
  destruct (playerRef_and_isPlayerReady st) as [i|].
  - destruct (isPaused (hooks st)); apply Hm.
  - apply advance_handleMouseActivity.
Qed.

Lemma advance_run_listener i l st :
  hooks_advance false (hooks st) (hooks (exec (run_listener i l) st)).
Proof.
  destruct l; unfold exec, run_listener, bind; cbn;
    try (destruct cb; cbn; unfold hooks_advance; cbn;
         (split; [tauto|split; [done|tauto]])).
  unfold query. destruct (players (page st) !! i) as [o|];
    [|apply hooks_advance_refl].
  destruct (Sdk.getCurrentTime (impl o)); [|apply hooks_advance_refl].
  destruct cb; apply hooks_advance_refl.
Qed.

Lemma advance_emit i name st :
  hooks_advance false (hooks st) (hooks (emit i name st)).
Proof.
  unfold emit. destruct (players (page st) !! i) as [o|];
    [|apply hooks_advance_refl].
  generalize (listeners o). intros ls.
  assert (∀ s, hooks_advance false (hooks st) (hooks s) →
               hooks_advance false (hooks st)
                 (hooks (foldl (λ s nl, if decide (nl.1 = name)
                                        then exec (run_listener i nl.2) s
                                        else s) s ls))) as Hgen.
  { induction ls as [|[n l] ls IH]; intros s Hs; [done|].
    cbn. apply IH. case_decide; [|done].
    eapply hooks_advance_trans; [exact Hs|apply advance_run_listener]. }
  apply Hgen, hooks_advance_refl.
Qed.

(** One event, seen from the hooks. *)
Lemma step_hooks_advance e st :
  hooks_advance (negb (is_sdk_event e)) (hooks st) (hooks (step e st)).
Proof.
  unfold step.
  match goal with
  | |- context [commit ?s] => destruct (commit_frame s) as (-> & _)
  end.
  destruct e as [p| |k|k|i name|pe|c|d]; cbn [is_sdk_event negb].
  - unfold set_props. destruct (mounted st); [|apply hooks_advance_refl].
    case_decide; [apply hooks_advance_refl|].
    eapply hooks_advance_trans; [|apply advance_effect].
    apply (advance_cleanup (with_props p st)).
  - unfold unmount. destruct (mounted st); [|apply hooks_advance_refl].
    apply (advance_cleanup st).
  - unfold script_load.
    destruct (head (page st) !! k) as [s|]; [|apply hooks_advance_refl].
    destruct (status s); try apply hooks_advance_refl.
    match goal with
    | |- context [exec (loadTwitchPlayer ?q) ?s0] =>
        apply (advance_loadTwitchPlayer q s0)
    end.
  - unfold script_error.
    destruct (head (page st) !! k) as [s|]; [|apply hooks_advance_refl].
    destruct (status s); try apply hooks_advance_refl.
    unfold hooks_advance. cbn. tauto.
  - apply advance_emit.
  - unfold pointer. destruct (mounted st); [|apply hooks_advance_refl].
    destruct (render st) as [| ? ? ? ? controls]; [apply hooks_advance_refl|].
    destruct pe; [apply advance_handleMouseActivity..
                 |apply advance_handleMouseLeave|].
    destruct controls; [|apply hooks_advance_refl].
    eapply hooks_advance_trans;
      [apply advance_handlePlayPause|apply advance_handleMouseActivity].
  - apply hooks_advance_eq. unfold exec.
    destruct c; cbn; unfold TwitchPlayerRef.play, TwitchPlayerRef.pause,
      TwitchPlayerRef.togglePlayPause, TwitchPlayerRef.seek,
      TwitchPlayerRef.setVolume, TwitchPlayerRef.setMuted,
      TwitchPlayerRef.setChannel, TwitchPlayerRef.setVideo, bind, gets;
      destruct (playerRef_and_isPlayerReady st); try done;
      try destruct (isPaused (hooks st));
      match goal with
      | |- context [invoke ?i ?m st] =>
          by destruct (invoke_frame i m st) as (-> & _)
      end.
  - unfold elapse. cbn zeta.
    match goal with
    | |- context [foldl ?f ?s0 ?l] =>
        destruct (hideControls_runs l s0)
          as (_ & _ & _ & _ & _ & Hl & He & _ & Hp)
    end.
    unfold hooks_advance. rewrite Hl, He, Hp. cbn. tauto.
Qed.

(** X10: the loading overlay never comes back: no code sets the loading flag to
    true, so once it is false it is false after every run of events, a
    configuration change that constructs a new player included. *)
Theorem loading_never_returns (es : list Event) st :
  isLoading (hooks st) = false → isLoading (hooks (run es st)) = false.
Proof.
  revert st. induction es as [|e es IH]; intros st Hl; [done|].
  cbn. apply IH. by apply (step_hooks_advance e st).
Qed.

(** X11: the paused flag follows the SDK's events only: a call through the
    handle, a click on the play/pause button, a configuration change, an
    unmount, a script settling or a timeout leaves [isPaused()] as it
    was. *)
Theorem paused_changes_only_on_sdk_events e st :
  is_sdk_event e = false →
  isPaused (hooks (step e st)) = isPaused (hooks st) ∧
  (TwitchPlayerRef.isPaused (step e st)).1 =
    (TwitchPlayerRef.isPaused st).1.
Proof.
  intros He. destruct (step_hooks_advance e st) as (_ & Hp & _).
  rewrite He in Hp. cbn. by rewrite Hp.
Qed.

(** X12: the error text is one of the component's two messages: in every state
    of a widget's life the error is null, the instantiation message or the
    script message, and the render shows exactly that text. *)
Theorem error_is_one_of_two_messages st :
  reachable st →
  (error (hooks st) = None ∧
   ∃ l c o, render st =
            Container (width_of (props st)) (height_of (props st)) l c o) ∨
  (error (hooks st) = Some "Failed to initialize Twitch player" ∧
   render st = ErrorContainer (width_of (props st)) (height_of (props st))
                 "Error: Failed to initialize Twitch player") ∨
  (error (hooks st) = Some "Failed to load Twitch embed script" ∧
   render st = ErrorContainer (width_of (props st)) (height_of (props st))
                 "Error: Failed to load Twitch embed script").
Proof.
  intros HR.
  assert (error (hooks st) = None ∨
          error (hooks st) = Some "Failed to initialize Twitch player" ∨
          error (hooks st) = Some "Failed to load Twitch embed script") as He.
  { induction HR as [p t tw|e st _ IH].
    - unfold mount.
      match goal with
      | |- context [commit ?s] => destruct (commit_frame s) as (-> & _)
      end.
      match goal with
      | |- context [exec (effect p) ?s0] =>
          destruct (advance_effect p s0) as (_ & _ & Hadv)
      end.
      cbn in Hadv. tauto.
    - destruct (step_hooks_advance e st) as (_ & _ & Hadv).
      destruct Hadv as [-> | Hadv]; tauto. }
  unfold render, error_shown.
  destruct He as [-> | [-> | ->]]; [left|right; left|right; right];
    (split; [done|]); [eauto|done..].
Qed.
End HooksAdvance.

(** The spinner is gone after ready and stays gone across a configuration
    change, while the new player has not reported ready. *)
Lemma loading_never_returns_witness :
  let st := step (SdkEvent 0 "ready")
                 (Fake.mounted_at 1000 true (Fake.watch "abc")) in
  let st' := run [SetProps (Fake.watch "xyz"); Elapse 5000] st in
  isLoading (hooks st) = false ∧
  isPlayerReady (hooks st') = false ∧ playerRef (refs st') = Some 1%nat ∧
  isLoading (hooks st') = false.
Proof.
  cbn zeta.
  assert (isLoading (hooks (step (SdkEvent 0 "ready")
            (Fake.mounted_at 1000 true (Fake.watch "abc")))) = false)
    as Hl by (vm_compute; reflexivity).
  split; [exact Hl|]. split; [vm_compute; reflexivity|].
  split; [vm_compute; reflexivity|].
  exact (loading_never_returns
           [SetProps (Fake.watch "xyz"); Elapse 5000] _ Hl).
Defined.

(** [pause()] on a playing player: the SDK is told, the flag waits for the
    SDK's event. *)
Lemma paused_changes_only_on_sdk_events_witness :
  let st := step (SdkEvent 0 "ready")
                 (Fake.mounted_at 1000 true (Fake.watch "abc")) in
  Fake.f_playing <$> (impl <$> players (page (step (Call CallPlay) st)))
    = [true] ∧
  isPaused (hooks (step (Call CallPlay) st)) = isPaused (hooks st).
Proof.
  cbn zeta. split; [vm_compute; reflexivity|].
  destruct (paused_changes_only_on_sdk_events (Call CallPlay)
              (step (SdkEvent 0 "ready")
                    (Fake.mounted_at 1000 true (Fake.watch "abc")))
              eq_refl) as (Hp & _).
  exact Hp.
Defined.

Lemma error_is_one_of_two_messages_witness :
  let st := step (ScriptError 0)
                 (Fake.mounted_at 1000 false (Fake.watch "abc")) in
  render st = ErrorContainer (DimString "100%") (DimString "100%")
                "Error: Failed to load Twitch embed script".
Proof.
  cbn zeta.
  destruct (error_is_one_of_two_messages
              (step (ScriptError 0)
                    (Fake.mounted_at 1000 false (Fake.watch "abc")))
              (reachable_step _ _ (reachable_mount _ _ _)))
    as [[He _] | [[He _] | [_ Hr]]].
  - vm_compute in He. discriminate.
  - vm_compute in He. discriminate.
  - exact Hr.
Defined.

(** ** The play/pause button *)

Section Button.
Context {I : Type} `{!Sdk.TwitchPlayerInstance I}.
Implicit Types st : State I.

Lemma handlePlayPause_players i o st :
  Inv st → playerRef (refs st) = Some i →
  isPlayerReady (hooks st) = true → players (page st) !! i = Some o →
  players (page (exec handlePlayPause st)) =
    match method_of CallTogglePlayPause (isPaused (hooks st)) (impl o) with
    | Normal d => <[i := player_impl d o]> (players (page st))
    | Throw _ => players (page st)
    end.
Proof.
  intros HI Hi Hr Ho. unfold exec, handlePlayPause.
  unfold bind at 1 2 3, gets. rewrite (guard_holds st i Hi Hr).
  assert (∀ m, players (page ((invoke i m ;; handleMouseActivity) st).2) =
               match m (impl o) with
               | Normal d => <[i := player_impl d o]> (players (page st))
               | Throw _ => players (page st)
               end) as Hm.
  { intros m. pose proof (Inv_invoke i m st HI) as HI1.
    unfold exec in HI1. unfold bind. unfold invoke in *. rewrite Ho in *.
    destruct (m (impl o)) as [d|e]; cbn [fst snd] in *; [|done].
    destruct (handleMouseActivity_spec _ HI1) as (_ & _ & _ & _ & Hp & _).
    exact Hp. }
  cbn [method_of]. destruct (isPaused (hooks st)); apply Hm.
Qed.

(** X13: a click on the play/pause button of a ready player calls [play] on the
    owned player when the paused flag is set and [pause] otherwise, then
    counts as pointer activity: the controls are shown and one hide timeout
    is pending.  The paused flag itself is not touched by the click, and when
    the SDK call throws the players are unchanged and the controls are shown
    all the same. *)
Theorem button_click_toggles i st :
  reachable st → mounted st = true → error_shown st = None →
  playerRef (refs st) = Some i → isPlayerReady (hooks st) = true →
  let st' := step (Pointer ButtonClick) st in
  ∃ o, players (page st) !! i = Some o ∧ destroyed o = false ∧
    players (page st') =
      match (if isPaused (hooks st) then Sdk.play (impl o)
             else Sdk.pause (impl o)) with
      | Normal d => <[i := player_impl d o]> (players (page st))
      | Throw _ => players (page st)
      end ∧
    showControls (hooks st') = true ∧
    isPaused (hooks st') = isPaused (hooks st) ∧
    ∃ id, timeouts (page st') = [(id, now (page st) + 3000)].
Proof.
  intros HR Hm He Hi Hr. pose proof (reachable_Inv _ HR) as HI. cbn zeta.
  destruct (inv_ref _ HI _ Hi) as (o & Ho & Hd).
  exists o. split; [done|]. split; [done|].
  destruct (step_hooks_advance (Pointer ButtonClick) st) as (_ & Hp & _).
  specialize (Hp eq_refl).
  assert (step (Pointer ButtonClick) st =
          commit (exec handleMouseActivity (exec handlePlayPause st))) as Hst.
  { unfold step, pointer, render. by rewrite Hm, He, Hr. }
  rewrite Hst in Hp |- *.
  destruct (armed_then_idle _ (Inv_handlePlayPause st HI))
    as (Hs & Ht & _).
  rewrite handlePlayPause_page in Ht by done.
  split; [|split; [done|split; [done|by eexists]]].
  match goal with
  | |- context [commit ?s] => destruct (commit_frame s) as (_ & -> & _)
  end.
  destruct (handleMouseActivity_spec _ (Inv_handlePlayPause st HI))
    as (_ & _ & _ & _ & -> & _).
  rewrite (handlePlayPause_players i o st HI Hi Hr Ho). cbn [method_of].
  by destruct (isPaused (hooks st)).
Qed.
End Button.

(** The button on a ready, playing player: the SDK's [pause] is called. *)
Lemma button_click_toggles_witness :
  let st := step (Call CallPlay)
              (step (SdkEvent 0 "ready")
                 (Fake.mounted_at 1000 true (Fake.watch "abc"))) in
  let st' := step (Pointer ButtonClick) st in
  mounted st = true ∧ error_shown st = None ∧
  playerRef (refs st) = Some 0%nat ∧ isPlayerReady (hooks st) = true ∧
  Fake.f_playing <$> (impl <$> players (page st)) = [true] ∧
  Fake.f_playing <$> (impl <$> players (page st')) = [false] ∧
  showControls (hooks st') = true.
Proof.
  cbn zeta.
  assert (mounted (step (Call CallPlay) (step (SdkEvent 0 "ready")
            (Fake.mounted_at 1000 true (Fake.watch "abc")))) = true)
    as Hm by (vm_compute; reflexivity).
  assert (error_shown (step (Call CallPlay) (step (SdkEvent 0 "ready")
            (Fake.mounted_at 1000 true (Fake.watch "abc")))) = None)
    as He by (vm_compute; reflexivity).
  assert (playerRef (refs (step (Call CallPlay) (step (SdkEvent 0 "ready")
            (Fake.mounted_at 1000 true (Fake.watch "abc"))))) = Some 0%nat)
    as Hi by (vm_compute; reflexivity).
  assert (isPlayerReady (hooks (step (Call CallPlay)
            (step (SdkEvent 0 "ready")
               (Fake.mounted_at 1000 true (Fake.watch "abc"))))) = true)
    as Hr by (vm_compute; reflexivity).
  split; [exact Hm|]. split; [exact He|]. split; [exact Hi|].
  split; [exact Hr|]. split; [vm_compute; reflexivity|].
  split; [vm_compute; reflexivity|].
  destruct (button_click_toggles 0 _
              (reachable_step _ _ (reachable_step _ _
                 (reachable_mount _ _ _))) Hm He Hi Hr)
    as (o & _ & _ & _ & Hs & _).
  exact Hs.
Defined.
